(** * The quiz feature: API route handlers and the quiz view

    A shallow embedding of the two source files of the quiz feature,

    - the route handler of [/api/quiz] (functions [GET] and [POST]), and
    - the presentation component [QuizView],

    followed by the properties of their observable contract.

    JavaScript values are dynamically typed, so the handlers are modelled over
    an inductive type of JavaScript values with [typeof] and truthiness written
    out.  The handlers run in a small monad that records every call of a
    data-access collaborator and carries thrown values, so that [try]/[catch]
    and "which collaborator was called with what" are both visible. *)

From Stdlib Require Import String List Bool ZArith Lia.
From Stdlib Require Import Floats.SpecFloat.
From ExtLib Require Import Structures.Monad Structures.MonadExc.
Import ListNotations.
Import MonadNotation.
Local Open Scope string_scope.
Local Open Scope monad_scope.

(** ** JavaScript values *)

Module Js.

(** Numbers are IEEE 754 doubles; [spec_float] has the signed zeros, the
    infinities and NaN that truthiness cares about. *)
#[warnings="-register-all"] Inductive JsValue : Type :=
| JUndefined
| JNull
| JBool (b : bool)
| JNumber (n : spec_float)
| JString (s : string)
| JArray (items : list JsValue)
| JObject (props : list (string * JsValue)).

(** [typeof v] for the values above ([typeof null] is ["object"]). *)
Definition typeof (v : JsValue) : string :=
  match v with
  | JUndefined => "undefined"
  | JNull => "object"
  | JBool _ => "boolean"
  | JNumber _ => "number"
  | JString _ => "string"
  | JArray _ => "object"
  | JObject _ => "object"
  end.

(** ToBoolean: [undefined], [null], [false], [+0], [-0], [NaN] and [""] are
    falsy, everything else (every array and object, also the empty ones) is
    truthy. *)
Definition truthy (v : JsValue) : bool :=
  match v with
  | JUndefined => false
  | JNull => false
  | JBool b => b
  | JNumber (S754_zero _) => false
  | JNumber S754_nan => false
  | JNumber _ => true
  | JString s => negb (s =? "")
  | JArray _ => true
  | JObject _ => true
  end.

(** The logical not operator [!v]. *)
Definition js_not (v : JsValue) : bool := negb (truthy v).

(** [a !== b] on the strings that [typeof] returns. *)
Definition strict_neq (a b : string) : bool := negb (a =? b).

(** The own property [name] of an object, [undefined] when it has none; an
    object holds a name once. *)
Fixpoint lookup (props : list (string * JsValue)) (name : string) : JsValue :=
  match props with
  | [] => JUndefined
  | (k, v) :: rest => if k =? name then v else lookup rest name
  end.

(** Reading the property [name] of a value that is neither [null] nor
    [undefined].  The handlers read only [articleUid], [userRespondedIsHuman],
    [userRespondedIsFake] and [timeToRespond]; none of them is a property of a
    boxed primitive, of an array or of their prototypes, so every value but an
    object holding the name gives [undefined]. *)
Definition Get (v : JsValue) (name : string) : JsValue :=
  match v with
  | JObject props => lookup props name
  | _ => JUndefined
  end.

(** The values the runtime throws. *)
Definition TypeError (message : string) : JsValue :=
  JObject [("name", JString "TypeError"); ("message", JString message)].

Definition SyntaxError (message : string) : JsValue :=
  JObject [("name", JString "SyntaxError"); ("message", JString message)].

(** What a client reads back from the text [JSON.stringify(v)]; [None] when
    [JSON.stringify] gives [undefined] instead of a text.  [NaN] and the
    infinities are written as [null] and [-0] as [0]; an [undefined] item of an
    array is written as [null] and an [undefined] property of an object is left
    out; the order of items and properties is kept. *)
Fixpoint JSON_stringify (v : JsValue) : option JsValue :=
  match v with
  | JUndefined => None
  | JNull => Some JNull
  | JBool b => Some (JBool b)
  | JNumber (S754_finite sign mantissa exponent) =>
      Some (JNumber (S754_finite sign mantissa exponent))
  | JNumber (S754_zero _) => Some (JNumber (S754_zero false))
  | JNumber _ => Some JNull
  | JString s => Some (JString s)
  | JArray items =>
      Some (JArray (map (fun item =>
                           match JSON_stringify item with
                           | Some json => json
                           | None => JNull
                           end) items))
  | JObject props =>
      Some (JObject (flat_map (fun prop =>
                                 match JSON_stringify (snd prop) with
                                 | Some json => [(fst prop, json)]
                                 | None => []
                                 end) props))
  end.

(** Plain JSON data: no [undefined] anywhere, and numbers that are finite and
    not [-0].  A record of strings, and an array of such records, is plain. *)
Fixpoint is_json (v : JsValue) : bool :=
  match v with
  | JUndefined => false
  | JNull => true
  | JBool _ => true
  | JNumber (S754_finite _ _ _) => true
  | JNumber (S754_zero sign) => negb sign
  | JNumber _ => false
  | JString _ => true
  | JArray items => forallb is_json items
  | JObject props => forallb (fun prop => is_json (snd prop)) props
  end.

(** Induction on a value with the hypothesis for every item of an array and
    every property of an object. *)
Section NestedInduction.

Variable P : JsValue -> Prop.
Hypothesis on_undefined : P JUndefined.
Hypothesis on_null : P JNull.
Hypothesis on_bool : forall b, P (JBool b).
Hypothesis on_number : forall n, P (JNumber n).
Hypothesis on_string : forall s, P (JString s).
Hypothesis on_array : forall items, Forall P items -> P (JArray items).
Hypothesis on_object :
  forall props, Forall (fun prop => P (snd prop)) props -> P (JObject props).

Fixpoint JsValue_nested_ind (v : JsValue) : P v :=
  match v with
  | JUndefined => on_undefined
  | JNull => on_null
  | JBool b => on_bool b
  | JNumber n => on_number n
  | JString s => on_string s
  | JArray items =>
      on_array items
        ((fix each (l : list JsValue) : Forall P l :=
            match l with
            | [] => Forall_nil P
            | item :: rest =>
                Forall_cons item (JsValue_nested_ind item) (each rest)
            end) items)
  | JObject props =>
      on_object props
        ((fix each (l : list (string * JsValue))
            : Forall (fun prop => P (snd prop)) l :=
            match l with
            | [] => Forall_nil (fun prop => P (snd prop))
            | prop :: rest =>
                Forall_cons prop (JsValue_nested_ind (snd prop)) (each rest)
            end) props)
  end.

End NestedInduction.

End Js.
Export Js.

(** ** Effects: collaborator calls and exceptions *)

Module Effects.

(** A call of a data-access collaborator, with the argument it received. *)
Inductive Call : Type :=
| CallFetchArticlesForUser (userUid : JsValue)
| CallStoreUserResponse (response : JsValue).

(** How an evaluation ends: with a value, or with a thrown value. *)
Inductive Result (A : Type) : Type :=
| Returns (a : A)
| Throws (error : JsValue).
Arguments Returns {A} a.
Arguments Throws {A} error.

(** A computation extends the log of collaborator calls made so far and ends
    with a [Result]; the log survives a throw. *)
Definition Eff (A : Type) : Type := list Call -> Result A * list Call.

#[global] Instance Monad_Eff : Monad Eff :=
  {| ret := fun _ a log => (Returns a, log);
     bind := fun _ _ m k log =>
       match m log with
       | (Returns a, log') => k a log'
       | (Throws e, log') => (Throws e, log')
       end |}.

#[global] Instance Exc_Eff : MonadExc JsValue Eff :=
  {| raise := fun _ e log => (Throws e, log);
     catch := fun _ m handler log =>
       match m log with
       | (Returns a, log') => (Returns a, log')
       | (Throws e, log') => handler e log'
       end |}.

(** Awaiting a collaborator: the call is logged, its outcome is the outcome of
    the [await]. *)
Definition call {A : Type} (c : Call) (outcome : Result A) : Eff A :=
  fun log => (outcome, (log ++ [c])%list).

(** Lifting an outcome that involves no collaborator. *)
Definition lift {A : Type} (outcome : Result A) : Eff A :=
  fun log => (outcome, log).

(** Running a handler from an empty log. *)
Definition run {A : Type} (m : Eff A) : Result A * list Call := m [].

End Effects.
Export Effects.

(** ** Requests and responses of the framework *)

Module Http.

(** [URLSearchParams]: the query pairs in the order of the URL. *)
Definition URLSearchParams : Type := list (string * string).

(** [searchParams.get(name)]: the first value of [name], or [null]. *)
Fixpoint get (searchParams : URLSearchParams) (name : string) : JsValue :=
  match searchParams with
  | [] => JNull
  | (k, v) :: rest => if k =? name then JString v else get rest name
  end.

(** [new URL(req.url)].  A URL of the platform always has a [searchParams]
    object; [None] stands for a falsy one, which only the handlers' first
    guard looks at. *)
Record URL : Type := { searchParams : option URLSearchParams }.

(** [req.body] is a stream or [null].  A stream is abstracted to what
    [JSON.parse] makes of its text: a value, or a thrown [SyntaxError]. *)
Record ReadableStream : Type := { parsed : Result JsValue }.

Record NextRequest : Type := {
  url : URL;
  body : option ReadableStream
}.

(** [req.json()]: parses the body text; an absent body has the empty text,
    which is not JSON. *)
Definition json (req : NextRequest) : Eff JsValue :=
  match body req with
  | Some stream => lift (parsed stream)
  | None => raise (SyntaxError "Unexpected end of JSON input")
  end.

Record NextResponse : Type := {
  res_body : JsValue;
  status : Z
}.

(** [NextResponse.json(body, { status })]: the response carries the JSON
    text of [body], and [res_body] is the value that text denotes.  For
    [undefined] there is no text (written [JUndefined] here); no handler
    passes it, the body of a 200 answer of [GET] being truthy and every other
    body an object literal. *)
Definition NextResponse_json (body : JsValue) (status : Z) : NextResponse :=
  {| res_body := match JSON_stringify body with
                 | Some json => json
                 | None => JUndefined
                 end;
     status := status |}.

(** The object literal [{ error: message }]. *)
Definition error_object (message : string) : JsValue :=
  JObject [("error", JString message)].

End Http.
Export Http.

(** ** The route handlers of [/api/quiz] *)

Section QuizRoute.

(** The collaborators of [./quiz.utils].  Each is awaited at most once per
    request, so its outcome is a function of the argument it receives. *)
Variable fetchArticlesForUser : JsValue -> Result JsValue.
Variable storeUserResponse : JsValue -> Result JsValue.

(** The [try] block of [GET]. *)
Definition GET_try (req : NextRequest) : Eff NextResponse :=
  match searchParams (url req) with
  | None =>
      ret (NextResponse_json (error_object "Invalid query parameters") 400)
  | Some searchParams =>
      let userUid := get searchParams "userUid" in
      let locale := get searchParams "locale" in
      if js_not userUid then
        ret (NextResponse_json (error_object "User ID is required") 400)
      else if js_not locale then
        ret (NextResponse_json (error_object "Locale is required") 400)
      else if strict_neq (typeof userUid) "string" then
        ret (NextResponse_json (error_object "Invalid User ID") 400)
      else if strict_neq (typeof locale) "string" then
        ret (NextResponse_json (error_object "Invalid Locale") 400)
      else
        questions <- call (CallFetchArticlesForUser userUid)
                          (fetchArticlesForUser userUid) ;;
        if js_not questions then
          ret (NextResponse_json (error_object "Quiz questions not found") 404)
        else
          ret (NextResponse_json questions 200)
  end.

Definition GET (req : NextRequest) : Eff NextResponse :=
  catch (GET_try req)
        (fun error =>
           ret (NextResponse_json (error_object "Internal Server Error") 500)).

(** The destructuring pattern [const { ... } = value] throws on [null] and
    [undefined] before any property is read. *)
Definition destructure (value : JsValue) : Eff JsValue :=
  match value with
  | JUndefined => raise (TypeError "Cannot destructure 'undefined'")
  | JNull => raise (TypeError "Cannot destructure 'null'")
  | _ => ret value
  end.

(** The object literal handed to [storeUserResponse]. *)
Definition user_response
    (userUid articleUid userRespondedIsHuman userRespondedIsFake
       timeToRespond : JsValue) : JsValue :=
  JObject [("userUid", userUid);
           ("articleUid", articleUid);
           ("userRespondedIsHuman", userRespondedIsHuman);
           ("userRespondedIsFake", userRespondedIsFake);
           ("timeToRespond", timeToRespond)].

(** The [try] block of [POST]. *)
Definition POST_try (req : NextRequest) : Eff NextResponse :=
  match searchParams (url req) with
  | None =>
      ret (NextResponse_json (error_object "Invalid query parameters") 400)
  | Some searchParams =>
      let userUid := get searchParams "userUid" in
      if js_not userUid then
        ret (NextResponse_json (error_object "User ID is required") 400)
      else if strict_neq (typeof userUid) "string" then
        ret (NextResponse_json (error_object "Invalid User ID") 400)
      else
        match body req with
        | None =>
            ret (NextResponse_json (error_object "Invalid request body") 400)
        | Some _ =>
            value <- json req ;;
            fields <- destructure value ;;
            let articleUid := Get fields "articleUid" in
            let userRespondedIsHuman := Get fields "userRespondedIsHuman" in
            let userRespondedIsFake := Get fields "userRespondedIsFake" in
            let timeToRespond := Get fields "timeToRespond" in
            if js_not articleUid then
              ret (NextResponse_json (error_object "Article ID is required") 400)
            else if strict_neq (typeof articleUid) "string" then
              ret (NextResponse_json (error_object "Invalid Article ID") 400)
            else if strict_neq (typeof userRespondedIsHuman) "boolean" then
              ret (NextResponse_json (error_object "Invalid user response") 400)
            else if strict_neq (typeof userRespondedIsFake) "boolean" then
              ret (NextResponse_json (error_object "Invalid user response") 400)
            else if strict_neq (typeof timeToRespond) "number" then
              ret (NextResponse_json (error_object "Invalid time to respond") 400)
            else
              let response :=
                user_response userUid articleUid userRespondedIsHuman
                              userRespondedIsFake timeToRespond in
              isCorrect <- call (CallStoreUserResponse response)
                                (storeUserResponse response) ;;
              if strict_neq (typeof isCorrect) "boolean" then
                ret (NextResponse_json (error_object "User response not stored") 404)
              else
                ret (NextResponse_json (JObject [("isCorrect", isCorrect)]) 200)
        end
  end.

Definition POST (req : NextRequest) : Eff NextResponse :=
  catch (POST_try req)
        (fun error =>
           ret (NextResponse_json (error_object "Internal Server Error") 500)).

End QuizRoute.

(** ** The quiz view component *)

Module View.

Inductive HumanAi : Type := human | ai.
Inductive RealFake : Type := real | fake.

Record Article : Type := {
  uid : string;
  headline : string;
  content : string
}.

Record QuizSession : Type := {
  articles : list Article;
  currentArticleIndex : Z
}.

(** The three function props of the component; a handler's effect is the list
    of prop calls it makes, in order. *)
Inductive PropCall : Type :=
| setHumanAiOptionChecked (option : HumanAi)
| setRealFakeOptionChecked (option : RealFake)
| onSubmitCallback (humanOptionSelected isFakeSelected : bool).

Record QuizViewProps : Type := {
  quizSession : QuizSession;
  humanAiOptionChecked : option HumanAi;
  realFakeOptionChecked : option RealFake
}.

(** Truthiness of a selector: its two literals are non-empty strings, [null]
    is falsy. *)
Definition selected {A : Type} (checked : option A) : bool :=
  match checked with
  | Some _ => true
  | None => false
  end.

(** [humanAiOptionChecked === variant]. *)
Definition humanAi_is (checked : option HumanAi) (variant : HumanAi) : bool :=
  match checked, variant with
  | Some human, human => true
  | Some ai, ai => true
  | _, _ => false
  end.

(** [realFakeOptionChecked === variant]. *)
Definition realFake_is (checked : option RealFake) (variant : RealFake) : bool :=
  match checked, variant with
  | Some real, real => true
  | Some fake, fake => true
  | _, _ => false
  end.

(** A rendered [Button]: whether it is disabled, whether it shows as checked,
    its label, and its click handler. *)
Record Button : Type := {
  disabled : bool;
  checked : bool;
  label : string;
  onClick : unit -> list PropCall
}.

(** A user click: a disabled button dispatches no click event. *)
Definition click (button : Button) : list PropCall :=
  if disabled button then [] else onClick button tt.

(** One dot of the progress indicator. *)
Record Marker : Type := {
  highlighted : bool;
  wide : bool
}.

Record Rendered : Type := {
  shownHeadline : string;
  shownContent : string;
  humanButton : Button;
  aiButton : Button;
  realButton : Button;
  fakeButton : Button;
  progress : list Marker;
  submitButton : Button
}.

(** [array[index]]: [undefined] outside the array. *)
Definition at_index {A : Type} (array : list A) (index : Z) : option A :=
  if (index <? 0)%Z then None else nth_error array (Z.to_nat index).

Section QuizView.

Variable decodeHTMLEntities : string -> string.
Variable MAX_ARTICLES_PER_SESSION : nat.
Variable translations : string -> string.

(** Reading [.headline] of [undefined] throws. *)
Definition getArticleHeadline (quizSession : QuizSession) : Result string :=
  match at_index (articles quizSession) (currentArticleIndex quizSession) with
  | Some article => Returns (headline article)
  | None => Throws (TypeError "Cannot read properties of undefined")
  end.

Definition getArticleContent (quizSession : QuizSession) : Result string :=
  match at_index (articles quizSession) (currentArticleIndex quizSession) with
  | Some article => Returns (decodeHTMLEntities (content article))
  | None => Throws (TypeError "Cannot read properties of undefined")
  end.

Definition HumanAiButton (props : QuizViewProps) (variant : HumanAi) : Button :=
  {| disabled := false;
     checked := humanAi_is (humanAiOptionChecked props) variant;
     label := match variant with
              | human => translations "quizViewAnswerHuman"
              | ai => translations "quizViewAnswerAi"
              end;
     onClick := fun _ => [setHumanAiOptionChecked variant] |}.

Definition RealFakeButton (props : QuizViewProps) (variant : RealFake) : Button :=
  {| disabled := false;
     checked := realFake_is (realFakeOptionChecked props) variant;
     label := match variant with
              | real => translations "quizViewAnswerReal"
              | fake => translations "quizViewAnswerFake"
              end;
     onClick := fun _ => [setRealFakeOptionChecked variant] |}.

(** [[...Array(MAX_ARTICLES_PER_SESSION)].map((_, index) => ...)]. *)
Definition progressIndicator (quizSession : QuizSession) : list Marker :=
  map (fun index : nat =>
         {| highlighted :=
              (Z.of_nat index <? currentArticleIndex quizSession + 1)%Z;
            wide := (Z.of_nat index =? currentArticleIndex quizSession)%Z |})
      (seq 0 MAX_ARTICLES_PER_SESSION).

Definition SubmitButton (props : QuizViewProps) : Button :=
  {| disabled := negb (selected (humanAiOptionChecked props))
                 || negb (selected (realFakeOptionChecked props));
     checked := false;
     label := translations "quizViewSubmitButton";
     onClick := fun _ =>
       if selected (humanAiOptionChecked props)
          && selected (realFakeOptionChecked props)
       then [onSubmitCallback
               (humanAi_is (humanAiOptionChecked props) human)
               (realFake_is (realFakeOptionChecked props) fake)]
       else [] |}.

(** Rendering throws when the current index is outside the articles. *)
Definition QuizView (props : QuizViewProps) : Result Rendered :=
  match getArticleHeadline (quizSession props) with
  | Throws e => Throws e
  | Returns shownHeadline =>
      match getArticleContent (quizSession props) with
      | Throws e => Throws e
      | Returns shownContent =>
          Returns
            {| shownHeadline := shownHeadline;
               shownContent := shownContent;
               humanButton := HumanAiButton props human;
               aiButton := HumanAiButton props ai;
               realButton := RealFakeButton props real;
               fakeButton := RealFakeButton props fake;
               progress := progressIndicator (quizSession props);
               submitButton := SubmitButton props |}
      end
  end.

(** Every click handler of a rendered view. *)
Definition handlers (view : Rendered) : list (unit -> list PropCall) :=
  [onClick (humanButton view); onClick (aiButton view);
   onClick (realButton view); onClick (fakeButton view);
   onClick (submitButton view)].

End QuizView.

End View.
Export View.

(** ** The contract of the handlers, in the words of the specification *)

Module Contract.

(** The seven validations of [POST], named. *)
Inductive Check : Type :=
| QueryPresent
| UserUidString
| BodyPresent
| ArticleUidString
| IsHumanBoolean
| IsFakeBoolean
| TimeToRespondNumber.

(** The order in which the specification lists them. *)
Definition validation_order : list Check :=
  [QueryPresent; UserUidString; BodyPresent; ArticleUidString;
   IsHumanBoolean; IsFakeBoolean; TimeToRespondNumber].

(** The query pairs of a request (none when the query object is absent). *)
Definition query (req : NextRequest) : URLSearchParams :=
  match searchParams (url req) with
  | Some pairs => pairs
  | None => []
  end.

Definition userUid_of (req : NextRequest) : JsValue := get (query req) "userUid".
Definition locale_of (req : NextRequest) : JsValue := get (query req) "locale".

(** The parsed body of a request ([undefined] when there is no body or its
    text is not JSON). *)
Definition fields_of (req : NextRequest) : JsValue :=
  match body req with
  | Some stream =>
      match parsed stream with
      | Returns value => value
      | Throws _ => JUndefined
      end
  | None => JUndefined
  end.

(** Whether a request passes a check. *)
Definition passes (check : Check) (req : NextRequest) : bool :=
  match check with
  | QueryPresent =>
      match searchParams (url req) with Some _ => true | None => false end
  | UserUidString =>
      truthy (userUid_of req) && (typeof (userUid_of req) =? "string")
  | BodyPresent =>
      match body req with Some _ => true | None => false end
  | ArticleUidString =>
      truthy (Get (fields_of req) "articleUid")
      && (typeof (Get (fields_of req) "articleUid") =? "string")
  | IsHumanBoolean =>
      typeof (Get (fields_of req) "userRespondedIsHuman") =? "boolean"
  | IsFakeBoolean =>
      typeof (Get (fields_of req) "userRespondedIsFake") =? "boolean"
  | TimeToRespondNumber =>
      typeof (Get (fields_of req) "timeToRespond") =? "number"
  end.

(** The error message of a failed check: "is required" for an absent
    identifier, "Invalid ..." for one of the wrong type. *)
Definition message (check : Check) (req : NextRequest) : string :=
  match check with
  | QueryPresent => "Invalid query parameters"
  | UserUidString =>
      if truthy (userUid_of req) then "Invalid User ID" else "User ID is required"
  | BodyPresent => "Invalid request body"
  | ArticleUidString =>
      if truthy (Get (fields_of req) "articleUid")
      then "Invalid Article ID" else "Article ID is required"
  | IsHumanBoolean => "Invalid user response"
  | IsFakeBoolean => "Invalid user response"
  | TimeToRespondNumber => "Invalid time to respond"
  end.

(** The first check of a list that a request fails. *)
Fixpoint first_failing (checks : list Check) (req : NextRequest) : option Check :=
  match checks with
  | [] => None
  | check :: rest =>
      if passes check req then first_failing rest req else Some check
  end.

(** The checks that do not look into the body. *)
Definition before_parsing (check : Check) : bool :=
  match check with
  | QueryPresent | UserUidString | BodyPresent => true
  | _ => false
  end.

(** A body, when there is one, whose text parses to something that can be
    destructured. *)
Definition body_parses (req : NextRequest) : bool :=
  match body req with
  | Some stream =>
      match parsed stream with
      | Returns JUndefined => false
      | Returns JNull => false
      | Returns _ => true
      | Throws _ => false
      end
  | None => true
  end.

(** A [GET] request with both query parameters present and non-empty. *)
Definition ValidQuizQuery (req : NextRequest) (userUid locale : string) : Prop :=
  userUid_of req = JString userUid /\ userUid <> "" /\
  locale_of req = JString locale /\ locale <> "".

(** A [POST] request whose five fields are all present with the right types. *)
Definition ValidAnswer (req : NextRequest) (userUid articleUid : string)
    (isHuman isFake : bool) (time : spec_float) : Prop :=
  userUid_of req = JString userUid /\ userUid <> "" /\
  Get (fields_of req) "articleUid" = JString articleUid /\ articleUid <> "" /\
  Get (fields_of req) "userRespondedIsHuman" = JBool isHuman /\
  Get (fields_of req) "userRespondedIsFake" = JBool isFake /\
  Get (fields_of req) "timeToRespond" = JNumber time.

(** A [POST] request whose fields other than [timeToRespond] are all present
    with the right types. *)
Definition ValidButTime (req : NextRequest) (userUid articleUid : string)
    (isHuman isFake : bool) : Prop :=
  userUid_of req = JString userUid /\ userUid <> "" /\
  Get (fields_of req) "articleUid" = JString articleUid /\ articleUid <> "" /\
  Get (fields_of req) "userRespondedIsHuman" = JBool isHuman /\
  Get (fields_of req) "userRespondedIsFake" = JBool isFake.

(** The responses of the handlers. *)
Definition bad_request (message : string) : NextResponse :=
  NextResponse_json (error_object message) 400.

Definition not_found (message : string) : NextResponse :=
  NextResponse_json (error_object message) 404.

Definition internal_server_error : NextResponse :=
  NextResponse_json (error_object "Internal Server Error") 500.

Definition ok (body : JsValue) : NextResponse := NextResponse_json body 200.

(** The error message of a response, when its body is [{ error: message }]. *)
Definition error_of (response : NextResponse) : option string :=
  match res_body response with
  | JObject [("error", JString message)] => Some message
  | _ => None
  end.

(** Requests used as examples. *)
Definition request (pairs : list (string * string))
    (body : option (Result JsValue)) : NextRequest :=
  {| url := {| searchParams := Some pairs |};
     body := match body with
             | Some outcome => Some {| parsed := outcome |}
             | None => None
             end |}.

End Contract.
Export Contract.

(** ** Example data *)

Module Examples.

(** A session of three articles, showing the second. *)
Definition three_articles : QuizSession :=
  {| articles :=
       [{| uid := "a1"; headline := "First"; content := "One &amp; only" |};
        {| uid := "a2"; headline := "Second"; content := "Two" |};
        {| uid := "a3"; headline := "Third"; content := "Three" |}];
     currentArticleIndex := 1 |}.

Definition props_with (humanAi : option HumanAi) (realFake : option RealFake)
  : QuizViewProps :=
  {| quizSession := three_articles;
     humanAiOptionChecked := humanAi;
     realFakeOptionChecked := realFake |}.

(** A view rendered with the identity for the entity decoder and for the
    translations, and five progress dots. *)
Definition render (props : QuizViewProps) : Result Rendered :=
  QuizView (fun text => text) 5 (fun key => key) props.

(** An answer body as [JSON.parse] returns it. *)
Definition answer_body (articleUid isHuman isFake time : JsValue) : JsValue :=
  JObject [("articleUid", articleUid);
           ("userRespondedIsHuman", isHuman);
           ("userRespondedIsFake", isFake);
           ("timeToRespond", time)].

(** The double 3.0: mantissa [3 * 2^51], exponent [-51]. *)
Definition three_seconds : spec_float :=
  S754_finite false 6755399441055744 (-51).

(** An article as the collaborator returns it, and the three articles of the
    session as a collection. *)
Definition article_value (article : Article) : JsValue :=
  JObject [("uid", JString (uid article));
           ("headline", JString (headline article));
           ("content", JString (content article))].

Definition three_article_values : JsValue :=
  JArray (map article_value (articles three_articles)).

(** A [GET] request with both parameters. *)
Definition quiz_query : NextRequest :=
  request [("userUid", "u1"); ("locale", "en")] None.

(** A [POST] request with a valid answer, and the object stored for it. *)
Definition quiz_answer : NextRequest :=
  request [("userUid", "u1")]
          (Some (Returns (answer_body (JString "a1") (JBool true) (JBool false)
                                      (JNumber three_seconds)))).

Definition stored_answer : JsValue :=
  user_response (JString "u1") (JString "a1") (JBool true) (JBool false)
                (JNumber three_seconds).

End Examples.
Export Examples.

(** * Properties *)

(** ** Proof automation *)

(** Case analysis on every test of a validation cascade. *)
Ltac split_tests :=
  repeat match goal with
         | |- context [truthy ?x] => destruct (truthy x) eqn:?
         | |- context [typeof ?x =? ?s] => destruct (typeof x =? s) eqn:?
         end.

(** Unfolding a handler down to its cascade of tests. *)
Ltac unfold_handler :=
  unfold run, POST, POST_try, GET, GET_try, json, destructure, lift, call,
    js_not, strict_neq; simpl.

(** ** Facts about JavaScript values *)

(** A query value is a string or [null], so the handlers' [typeof] guards on
    query values never fire. *)
Lemma get_null_or_string (pairs : URLSearchParams) (name : string) :
  get pairs name = JNull \/ exists s, get pairs name = JString s.
Proof.
  induction pairs as [| [k v] rest IH]; simpl.
  - now left.
  - destruct (k =? name); [right; now exists v | exact IH].
Qed.

Lemma truthy_string (s : string) : truthy (JString s) = true <-> s <> "".
Proof.
  simpl. destruct (String.eqb_spec s ""); simpl; split; congruence.
Qed.

Lemma js_not_string (s : string) : s <> "" -> js_not (JString s) = false.
Proof.
  intros H. unfold js_not. now rewrite (proj2 (truthy_string s) H).
Qed.

(** Plain JSON data is written and read back unchanged. *)
Lemma JSON_stringify_plain (v : JsValue) :
  is_json v = true -> JSON_stringify v = Some v.
Proof.
  induction v as [| | b | n | s | items IH | props IH]
    using JsValue_nested_ind; simpl; try reflexivity; try discriminate.
  - destruct n as [sign | sign | | sign mantissa exponent];
      try discriminate; try reflexivity.
    destruct sign; [discriminate | reflexivity].
  - intros Hplain. do 2 f_equal.
    induction IH as [| item rest Hitem _ IHrest]; [reflexivity |].
    simpl in Hplain. apply andb_true_iff in Hplain as [Hhead Htail].
    simpl. rewrite (Hitem Hhead). f_equal. now apply IHrest.
  - intros Hplain. do 2 f_equal.
    induction IH as [| [name value] rest Hprop _ IHrest]; [reflexivity |].
    simpl in Hplain. apply andb_true_iff in Hplain as [Hhead Htail].
    simpl in *. rewrite (Hprop Hhead). simpl. f_equal. now apply IHrest.
Qed.

(** Values that are not plain JSON data are not read back as they were. *)
Lemma JSON_stringify_examples :
  JSON_stringify (JNumber (S754_infinity false)) = Some JNull /\
  JSON_stringify (JNumber (S754_zero true)) = Some (JNumber (S754_zero false)) /\
  JSON_stringify (JArray [JUndefined; JNumber S754_nan]) =
    Some (JArray [JNull; JNull]) /\
  JSON_stringify (JObject [("a", JUndefined); ("b", JBool true)]) =
    Some (JObject [("b", JBool true)]) /\
  JSON_stringify JUndefined = None.
Proof. repeat split. Qed.

(** A JSON text never denotes [undefined]. *)
Lemma JSON_stringify_defined (v json : JsValue) :
  JSON_stringify v = Some json -> json <> JUndefined.
Proof.
  destruct v as [| | b | n | s | items | props]; simpl;
    try destruct n; intros [= <-]; discriminate.
Qed.

(** A truthy value always has a JSON text. *)
Lemma truthy_has_json (v : JsValue) :
  truthy v = true -> exists json, JSON_stringify v = Some json.
Proof.
  destruct v as [| | b | n | s | items | props]; simpl; try discriminate;
    intros _; try (eexists; reflexivity).
  destruct n; eexists; reflexivity.
Qed.

(** A response built from plain JSON data carries it unchanged. *)
Lemma NextResponse_json_plain (body : JsValue) (code : Z) :
  is_json body = true ->
  NextResponse_json body code = {| res_body := body; status := code |}.
Proof.
  intros Hplain. unfold NextResponse_json.
  now rewrite (JSON_stringify_plain _ Hplain).
Qed.

(** A collection of articles is plain JSON data. *)
Lemma articles_are_plain (collection : list Article) :
  is_json (JArray (map article_value collection)) = true.
Proof.
  simpl. induction collection as [| article rest IH]; [reflexivity | exact IH].
Qed.

(** ** The [GET] handler *)

Section GetFacts.

Variable fetchArticlesForUser : JsValue -> Result JsValue.

(** What [GET] does with a request that passes its validation. *)
Lemma GET_valid_run (req : NextRequest) (userUid locale : string) :
  ValidQuizQuery req userUid locale ->
  run (GET fetchArticlesForUser req) =
  (Returns match fetchArticlesForUser (JString userUid) with
           | Returns questions =>
               if truthy questions then ok questions
               else not_found "Quiz questions not found"
           | Throws _ => internal_server_error
           end,
   [CallFetchArticlesForUser (JString userUid)]).
Proof.
  destruct req as [[[pairs |]] stream];
    unfold ValidQuizQuery, userUid_of, locale_of, query; simpl;
    intros (Hu & Hu' & Hl & Hl'); try discriminate.
  unfold run, GET, GET_try; simpl. rewrite Hu, Hl.
  rewrite (js_not_string _ Hu'), (js_not_string _ Hl'). simpl.
  unfold call. destruct (fetchArticlesForUser (JString userUid)) as [q | e];
    simpl; [| reflexivity].
  unfold js_not. now destruct (truthy q).
Qed.

End GetFacts.

Section GetClaims.

Variable fetchArticlesForUser : JsValue -> Result JsValue.

(** C6.  [GET] checks [userUid] before [locale]: whatever other query pairs
    the request carries, a missing [userUid] is answered by 400
    "User ID is required" and, once [userUid] is there, a missing [locale]
    by 400 "Locale is required"; a request without [locale] is answered by
    400 in every case.  The collaborator is not called. *)
Theorem GET_missing_parameter_is_400 (req : NextRequest) (pairs : URLSearchParams) :
  searchParams (url req) = Some pairs ->
  (get pairs "userUid" = JNull ->
   run (GET fetchArticlesForUser req) =
   (Returns (bad_request "User ID is required"), [])) /\
  (truthy (get pairs "userUid") = true -> get pairs "locale" = JNull ->
   run (GET fetchArticlesForUser req) =
   (Returns (bad_request "Locale is required"), [])) /\
  (get pairs "locale" = JNull ->
   exists response,
     run (GET fetchArticlesForUser req) = (Returns response, []) /\
     status response = 400%Z).
Proof.
  destruct req as [[query] stream]; simpl; intros ->.
  unfold run, GET, GET_try; simpl.
  repeat split.
  - intros ->. reflexivity.
  - intros Hu ->. unfold js_not. rewrite Hu. reflexivity.
  - intros ->. unfold js_not at 1.
    destruct (truthy (get pairs "userUid")); simpl; eauto.
Qed.

(** C4.  A [GET] request that passes validation makes exactly one
    collaborator call, [fetchArticlesForUser(userUid)]; the locale is not
    part of the call, and the outcome of the handler is the same for every
    valid locale. *)
Theorem GET_forwards_userUid_only (req : NextRequest) (userUid locale : string) :
  ValidQuizQuery req userUid locale ->
  snd (run (GET fetchArticlesForUser req)) =
    [CallFetchArticlesForUser (JString userUid)] /\
  forall (req' : NextRequest) (locale' : string),
    ValidQuizQuery req' userUid locale' ->
    run (GET fetchArticlesForUser req') = run (GET fetchArticlesForUser req).
Proof.
  intros Hvalid. split.
  - now rewrite (GET_valid_run _ _ _ _ Hvalid).
  - intros req' locale' Hvalid'.
    now rewrite (GET_valid_run _ _ _ _ Hvalid), (GET_valid_run _ _ _ _ Hvalid').
Qed.

(** C2, as amended.  For a [GET] request with valid [userUid] and [locale]
    whose collaborator returns a value: a falsy value gives 404
    "Quiz questions not found"; a collection of plain JSON data, as a
    collection of articles is, gives 200 with that collection as the body,
    unchanged, whether it is empty or not. *)
Theorem GET_maps_collaborator_result
    (req : NextRequest) (userUid locale : string) (questions : JsValue) :
  ValidQuizQuery req userUid locale ->
  fetchArticlesForUser (JString userUid) = Returns questions ->
  (truthy questions = false ->
   run (GET fetchArticlesForUser req) =
   (Returns (not_found "Quiz questions not found"),
    [CallFetchArticlesForUser (JString userUid)])) /\
  (forall items,
      questions = JArray items -> is_json (JArray items) = true ->
      run (GET fetchArticlesForUser req) =
      (Returns {| res_body := JArray items; status := 200 |},
       [CallFetchArticlesForUser (JString userUid)])).
Proof.
  intros Hvalid Hfetch.
  rewrite (GET_valid_run _ _ _ _ Hvalid), Hfetch.
  split.
  - now intros ->.
  - intros items -> Hplain. cbn [truthy]. unfold ok.
    now rewrite (NextResponse_json_plain _ _ Hplain).
Qed.

End GetClaims.

(** C6, at a request that carries a locale and an unrelated pair only. *)
Lemma GET_missing_parameter_is_400_witness :
  run (GET (fun _ => Returns JNull)
           (request [("locale", "en"); ("page", "2")] None)) =
  (Returns (bad_request "User ID is required"), []).
Proof.
  apply (GET_missing_parameter_is_400 (fun _ => Returns JNull)
           (request [("locale", "en"); ("page", "2")] None)
           [("locale", "en"); ("page", "2")]).
  - reflexivity.
  - reflexivity.
Defined.

(** C4, at two requests that differ in the locale. *)
Lemma GET_forwards_userUid_only_witness :
  run (GET (fun _ => Returns (JArray [JString "a1"]))
           (request [("userUid", "u1"); ("locale", "de")] None)) =
  run (GET (fun _ => Returns (JArray [JString "a1"]))
           (request [("userUid", "u1"); ("locale", "en")] None)).
Proof.
  refine (proj2 (GET_forwards_userUid_only
                   (fun _ => Returns (JArray [JString "a1"]))
                   (request [("userUid", "u1"); ("locale", "en")] None)
                   "u1" "en" _) _ "de" _).
  - unfold ValidQuizQuery; simpl; repeat split; discriminate.
  - unfold ValidQuizQuery; simpl; repeat split; discriminate.
Defined.

(** C2, as amended, at a collaborator that returns three articles. *)
Lemma GET_maps_collaborator_result_witness :
  run (GET (fun _ => Returns three_article_values)
           (request [("userUid", "u1"); ("locale", "en")] None)) =
  (Returns {| res_body := three_article_values; status := 200 |},
   [CallFetchArticlesForUser (JString "u1")]).
Proof.
  refine (proj2 (GET_maps_collaborator_result
                   (fun _ => Returns three_article_values)
                   (request [("userUid", "u1"); ("locale", "en")] None)
                   "u1" "en" three_article_values _ _)
                (map article_value (articles three_articles)) _ _).
  - unfold ValidQuizQuery; simpl; repeat split; discriminate.
  - reflexivity.
  - reflexivity.
  - reflexivity.
Defined.

(** A collaborator result that is truthy but not plain JSON data: the
    infinity is answered by 200 with the body [null]. *)
Lemma GET_infinity_is_sent_as_null :
  run (GET (fun _ => Returns (JNumber (S754_infinity false)))
           (request [("userUid", "u1"); ("locale", "en")] None)) =
  (Returns {| res_body := JNull; status := 200 |},
   [CallFetchArticlesForUser (JString "u1")]).
Proof. reflexivity. Qed.

(** C2 as stated fails: when the collaborator returns the empty collection
    the response is 200 with the empty collection, not 404. *)
Lemma GET_empty_collection_is_not_404 :
  let outcome :=
    run (GET (fun _ => Returns (JArray []))
             (request [("userUid", "u1"); ("locale", "en")] None)) in
  outcome = (Returns (ok (JArray [])), [CallFetchArticlesForUser (JString "u1")])
  /\ fst outcome <> Returns (not_found "Quiz questions not found").
Proof.
  split; [reflexivity | discriminate].
Qed.

(** ** The [POST] handler *)

Section PostFacts.

Variable storeUserResponse : JsValue -> Result JsValue.

(** [POST] on a body that can be destructured, once the query checks pass:
    the field checks in order, then the collaborator. *)
Lemma POST_first_failing_run (req : NextRequest) (check : Check) :
  first_failing validation_order req = Some check ->
  before_parsing check = true \/ body_parses req = true ->
  run (POST storeUserResponse req) =
  (Returns (bad_request (message check req)), []).
Proof.
  destruct req as [[[pairs |]] [[[jsv | e]] |]];
    unfold body_parses, passes, message, userUid_of, fields_of, query;
    simpl; unfold passes, message, userUid_of, fields_of, query; simpl.
  all: unfold_handler.
  all: try (is_var jsv; destruct jsv; simpl).
  all: split_tests; simpl.
  all: intros Hfirst Hparse; try discriminate Hfirst.
  all: injection Hfirst as Hcheck; destruct Hcheck; simpl in *.
  all: try reflexivity.
  all: destruct Hparse; discriminate.
Qed.

(** A body that is there but cannot be parsed, or parses to [null], makes the
    [try] block throw once the query checks have passed. *)
Lemma POST_unparseable_run (req : NextRequest) :
  first_failing [QueryPresent; UserUidString; BodyPresent] req = None ->
  body_parses req = false ->
  run (POST storeUserResponse req) = (Returns internal_server_error, []).
Proof.
  destruct req as [[[pairs |]] [[[jsv | e]] |]];
    unfold body_parses, passes, userUid_of, query;
    simpl; unfold passes, userUid_of, query; simpl.
  all: unfold_handler.
  all: try (is_var jsv; destruct jsv; simpl).
  all: split_tests; simpl; intros Hfirst Hparse; try discriminate.
  all: reflexivity.
Qed.

Lemma nonempty_string_value (v : JsValue) :
  truthy v && (typeof v =? "string") = true ->
  exists s, v = JString s /\ s <> "".
Proof.
  intros H. apply andb_true_iff in H as [Htruthy Htype].
  destruct v; try discriminate. exists s. split; [reflexivity |].
  now apply truthy_string.
Qed.

Lemma boolean_value (v : JsValue) :
  (typeof v =? "boolean") = true -> exists b, v = JBool b.
Proof. destruct v; try discriminate. now exists b. Qed.

Lemma number_value (v : JsValue) :
  (typeof v =? "number") = true -> exists n, v = JNumber n.
Proof. destruct v; try discriminate. now exists n. Qed.

(** A request that fails none of the seven checks carries a valid answer. *)
Lemma all_checks_pass_valid (req : NextRequest) :
  first_failing validation_order req = None ->
  exists userUid articleUid isHuman isFake time,
    ValidAnswer req userUid articleUid isHuman isFake time.
Proof.
  unfold validation_order. cbn [first_failing].
  destruct (passes QueryPresent req) eqn:H1; [| discriminate].
  destruct (passes UserUidString req) eqn:H2; [| discriminate].
  destruct (passes BodyPresent req) eqn:H3; [| discriminate].
  destruct (passes ArticleUidString req) eqn:H4; [| discriminate].
  destruct (passes IsHumanBoolean req) eqn:H5; [| discriminate].
  destruct (passes IsFakeBoolean req) eqn:H6; [| discriminate].
  destruct (passes TimeToRespondNumber req) eqn:H7; [| discriminate].
  intros _. cbn [passes] in *.
  apply nonempty_string_value in H2 as (u & Hu & Hu').
  apply nonempty_string_value in H4 as (a & Ha & Ha').
  apply boolean_value in H5 as (h & Hh).
  apply boolean_value in H6 as (f & Hf).
  apply number_value in H7 as (t & Ht).
  exists u, a, h, f, t. unfold ValidAnswer. tauto.
Qed.

(** A valid answer fails none of the seven checks, and its body parses. *)
Lemma valid_all_checks_pass (req : NextRequest) (userUid articleUid : string)
    (isHuman isFake : bool) (time : spec_float) :
  ValidAnswer req userUid articleUid isHuman isFake time ->
  first_failing validation_order req = None /\ body_parses req = true.
Proof.
  destruct req as [[[pairs |]] [[[jsv | e]] |]];
    unfold ValidAnswer, body_parses, userUid_of, fields_of, query;
    simpl; unfold passes, userUid_of, fields_of, query; simpl;
    intros (Hu & Hu' & Ha & Ha' & Hh & Hf & Ht); try discriminate.
  destruct jsv; try discriminate. simpl in *.
  rewrite Hu, Ha, Hh, Hf, Ht. simpl.
  apply String.eqb_neq in Hu', Ha'. rewrite Hu', Ha'. now split.
Qed.

(** What [POST] does with a valid answer: one call of the collaborator with
    the five fields, and the response decided by what it returns. *)
Lemma POST_valid_run (req : NextRequest) (userUid articleUid : string)
    (isHuman isFake : bool) (time : spec_float) :
  ValidAnswer req userUid articleUid isHuman isFake time ->
  let response :=
    user_response (JString userUid) (JString articleUid)
                  (JBool isHuman) (JBool isFake) (JNumber time) in
  run (POST storeUserResponse req) =
  (Returns match storeUserResponse response with
           | Returns isCorrect =>
               if typeof isCorrect =? "boolean"
               then ok (JObject [("isCorrect", isCorrect)])
               else not_found "User response not stored"
           | Throws _ => internal_server_error
           end,
   [CallStoreUserResponse response]).
Proof.
  destruct req as [[[pairs |]] [[[jsv | e]] |]];
    unfold ValidAnswer, userUid_of, fields_of, query; simpl;
    intros (Hu & Hu' & Ha & Ha' & Hh & Hf & Ht); try discriminate.
  destruct jsv; try discriminate. simpl in *.
  unfold_handler. rewrite Hu, Ha, Hh, Hf, Ht. simpl.
  apply String.eqb_neq in Hu', Ha'. rewrite Hu', Ha'. simpl.
  destruct (storeUserResponse _) as [isCorrect | e]; simpl; [| reflexivity].
  now destruct (typeof isCorrect =? "boolean").
Qed.

(** The three ways a [POST] request can go. *)
Lemma POST_cases (req : NextRequest) :
  (exists check,
      first_failing validation_order req = Some check /\
      run (POST storeUserResponse req) =
      (Returns (bad_request (message check req)), [])) \/
  run (POST storeUserResponse req) = (Returns internal_server_error, []) \/
  (exists userUid articleUid isHuman isFake time,
      ValidAnswer req userUid articleUid isHuman isFake time).
Proof.
  destruct (first_failing validation_order req) as [check |] eqn:Hfirst.
  - destruct (before_parsing check) eqn:Hbefore.
    + left. exists check. split; [reflexivity |].
      apply POST_first_failing_run; auto.
    + destruct (body_parses req) eqn:Hparse.
      * left. exists check. split; [reflexivity |].
        apply POST_first_failing_run; auto.
      * right; left. apply POST_unparseable_run; [| exact Hparse].
        revert Hfirst. unfold validation_order. cbn [first_failing].
        destruct (passes QueryPresent req);
          [| intros [= <-]; discriminate].
        destruct (passes UserUidString req);
          [| intros [= <-]; discriminate].
        destruct (passes BodyPresent req);
          [| intros [= <-]; discriminate].
        reflexivity.
  - right; right. now apply all_checks_pass_valid.
Qed.

End PostFacts.

Section PostClaims.

Variable storeUserResponse : JsValue -> Result JsValue.

(** C1, as amended.  [POST] applies its validations in the order: query
    object present, [userUid] present and a string, request body present,
    [articleUid] present and a string, [userRespondedIsHuman] boolean,
    [userRespondedIsFake] boolean, [timeToRespond] a number.  The first check
    that fails decides the response, which is 400 with that check's message
    and no collaborator call, provided the check does not look into the body
    or the body parses to a value other than [null].  A body that is present
    but does not parse is not answered by 400: once the first three checks
    pass, the response is 500 "Internal Server Error". *)
Theorem POST_first_failing_check_wins (req : NextRequest) (check : Check) :
  first_failing validation_order req = Some check ->
  (before_parsing check = true \/ body_parses req = true ->
   run (POST storeUserResponse req) =
   (Returns (bad_request (message check req)), [])) /\
  (before_parsing check = false -> body_parses req = false ->
   run (POST storeUserResponse req) = (Returns internal_server_error, [])).
Proof.
  intros Hfirst. split.
  - now apply POST_first_failing_run.
  - intros Hbefore Hparse.
    destruct (POST_cases storeUserResponse req)
      as [(check' & Hfirst' & Hrun) | [Hrun | (u & a & h & f & t & Hvalid)]].
    + rewrite Hfirst in Hfirst'. injection Hfirst' as <-.
      apply POST_unparseable_run; [| exact Hparse].
      revert Hfirst Hbefore. unfold validation_order. cbn [first_failing].
      destruct (passes QueryPresent req); [| intros [= <-]; discriminate].
      destruct (passes UserUidString req); [| intros [= <-]; discriminate].
      destruct (passes BodyPresent req); [| intros [= <-]; discriminate].
      reflexivity.
    + exact Hrun.
    + apply valid_all_checks_pass in Hvalid as [Hnone _]. congruence.
Qed.

(** C5.  For a [POST] request whose five fields are valid and whose
    collaborator returns a value: [true] gives 200 [{isCorrect: true}],
    [false] gives 200 [{isCorrect: false}], and a value that is not a boolean
    ([undefined] among them) gives 404 "User response not stored". *)
Theorem POST_maps_collaborator_result
    (req : NextRequest) (userUid articleUid : string) (isHuman isFake : bool)
    (time : spec_float) (isCorrect : JsValue) :
  ValidAnswer req userUid articleUid isHuman isFake time ->
  let response :=
    user_response (JString userUid) (JString articleUid)
                  (JBool isHuman) (JBool isFake) (JNumber time) in
  storeUserResponse response = Returns isCorrect ->
  (isCorrect = JBool true ->
   run (POST storeUserResponse req) =
   (Returns (ok (JObject [("isCorrect", JBool true)])),
    [CallStoreUserResponse response])) /\
  (isCorrect = JBool false ->
   run (POST storeUserResponse req) =
   (Returns (ok (JObject [("isCorrect", JBool false)])),
    [CallStoreUserResponse response])) /\
  ((forall b, isCorrect <> JBool b) ->
   run (POST storeUserResponse req) =
   (Returns (not_found "User response not stored"),
    [CallStoreUserResponse response])) /\
  (isCorrect = JUndefined ->
   run (POST storeUserResponse req) =
   (Returns (not_found "User response not stored"),
    [CallStoreUserResponse response])).
Proof.
  intros Hvalid response Hstore.
  rewrite (POST_valid_run _ _ _ _ _ _ _ Hvalid).
  fold response. rewrite Hstore.
  repeat split.
  - now intros ->.
  - now intros ->.
  - intros Hnot. destruct (typeof isCorrect =? "boolean") eqn:Htype;
      [| reflexivity].
    apply boolean_value in Htype as [b ->]. now destruct (Hnot b).
  - now intros ->.
Qed.

(** C7, as amended.  For a [POST] request whose [timeToRespond] is not a
    number: when its other fields are valid the response is 400
    "Invalid time to respond"; when an earlier check fails the response is
    still 400 but carries the message of the first failing check (the body
    being absent, or parsed to a value other than [null]).  The collaborator is
    not called. *)
Theorem POST_invalid_time_to_respond (req : NextRequest) :
  (typeof (Get (fields_of req) "timeToRespond") =? "number") = false ->
  (forall userUid articleUid isHuman isFake,
      ValidButTime req userUid articleUid isHuman isFake ->
      run (POST storeUserResponse req) =
      (Returns (bad_request "Invalid time to respond"), [])) /\
  (body_parses req = true ->
   exists check,
     first_failing validation_order req = Some check /\
     run (POST storeUserResponse req) =
     (Returns (bad_request (message check req)), [])).
Proof.
  intros Htime. split.
  - intros u a h f (Hu & Hu' & Ha & Ha' & Hh & Hf).
    assert (Hfirst : first_failing validation_order req = Some TimeToRespondNumber).
    { unfold validation_order. cbn [first_failing passes].
      rewrite Hu, Ha, Hh, Hf, Htime. simpl.
      apply String.eqb_neq in Hu', Ha'. rewrite Hu', Ha'. simpl.
      assert (searchParams (url req) <> None) as Hq.
      { intros Hq. unfold userUid_of, query in Hu. rewrite Hq in Hu.
        discriminate. }
      assert (body req <> None) as Hb.
      { intros Hb. unfold fields_of in Ha. rewrite Hb in Ha. discriminate. }
      destruct (searchParams (url req)); [| congruence].
      destruct (body req); [| congruence]. reflexivity. }
    assert (Hparse : body_parses req = true).
    { unfold body_parses. unfold fields_of in Ha.
      destruct (body req) as [[[jsv | e]] |]; simpl in *;
        try discriminate; trivial.
      destruct jsv; try discriminate; reflexivity. }
    apply (POST_first_failing_run storeUserResponse req TimeToRespondNumber);
      auto.
  - intros Hparse.
    destruct (first_failing validation_order req) as [check |] eqn:Hfirst.
    + exists check. split; [reflexivity |].
      apply POST_first_failing_run; auto.
    + apply all_checks_pass_valid in Hfirst
        as (u & a & h & f & t & (_ & _ & _ & _ & _ & _ & Ht)).
      rewrite Ht in Htime. discriminate.
Qed.

(** C10.  A [POST] request answered by 400 never reaches the collaborator:
    the log of calls is empty.  When the log is not empty it holds exactly one
    call of [storeUserResponse], made with the five validated fields. *)
Theorem POST_400_never_stores
    (req : NextRequest) (response : NextResponse) (log : list Call) :
  run (POST storeUserResponse req) = (Returns response, log) ->
  (status response = 400%Z -> log = []) /\
  (log <> [] ->
   exists userUid articleUid isHuman isFake time,
     ValidAnswer req userUid articleUid isHuman isFake time /\
     log = [CallStoreUserResponse
              (user_response (JString userUid) (JString articleUid)
                             (JBool isHuman) (JBool isFake) (JNumber time))]).
Proof.
  intros Hrun.
  destruct (POST_cases storeUserResponse req)
    as [(check & _ & Hrun') | [Hrun' | (u & a & h & f & t & Hvalid)]].
  - rewrite Hrun in Hrun'. injection Hrun' as _ ->. now split.
  - rewrite Hrun in Hrun'. injection Hrun' as _ ->. now split.
  - pose proof (POST_valid_run storeUserResponse _ _ _ _ _ _ Hvalid) as Hrun'.
    cbv zeta in Hrun'. rewrite Hrun in Hrun'. injection Hrun' as -> ->.
    split.
    + destruct (storeUserResponse _) as [isCorrect | e]; simpl;
        [destruct (typeof isCorrect =? "boolean"); simpl |]; discriminate.
    + intros _. exists u, a, h, f, t. now split.
Qed.

End PostClaims.

(** ** Failures *)

(** [try { m } catch (error) { return fallback }] always returns: the value
    of [m] when it returns, the fallback, whatever was thrown, when it
    throws. *)
Lemma try_catch_returns {A : Type} (m : Eff A) (fallback : A) :
  exists a log,
    run (catch m (fun _ => ret fallback)) = (Returns a, log) /\
    log = snd (run m) /\
    (forall e, fst (run m) = Throws e -> a = fallback) /\
    (forall a', fst (run m) = Returns a' -> a = a').
Proof.
  unfold run. simpl. destruct (m []) as [[a | e] log]; simpl.
  - exists a, log. repeat split; congruence.
  - exists fallback, log. repeat split; congruence.
Qed.

Section FailureClaims.

Variable fetchArticlesForUser : JsValue -> Result JsValue.
Variable storeUserResponse : JsValue -> Result JsValue.

(** C8.  Both handlers always answer, and whatever value their [try] block
    throws, the answer is 500 with exactly [{error: "Internal Server Error"}]:
    the thrown value does not appear in it.  In particular an exception of
    [fetchArticlesForUser] or of [storeUserResponse] on a valid request is
    answered that way. *)
Theorem handlers_flatten_failures (req : NextRequest) :
  (exists response log,
      run (GET fetchArticlesForUser req) = (Returns response, log) /\
      forall e, fst (run (GET_try fetchArticlesForUser req)) = Throws e ->
                response = internal_server_error) /\
  (exists response log,
      run (POST storeUserResponse req) = (Returns response, log) /\
      forall e, fst (run (POST_try storeUserResponse req)) = Throws e ->
                response = internal_server_error) /\
  (forall userUid locale e,
      ValidQuizQuery req userUid locale ->
      fetchArticlesForUser (JString userUid) = Throws e ->
      run (GET fetchArticlesForUser req) =
      (Returns internal_server_error,
       [CallFetchArticlesForUser (JString userUid)])) /\
  (forall userUid articleUid isHuman isFake time e,
      ValidAnswer req userUid articleUid isHuman isFake time ->
      let response :=
        user_response (JString userUid) (JString articleUid)
                      (JBool isHuman) (JBool isFake) (JNumber time) in
      storeUserResponse response = Throws e ->
      run (POST storeUserResponse req) =
      (Returns internal_server_error, [CallStoreUserResponse response])).
Proof.
  repeat split.
  - destruct (try_catch_returns (GET_try fetchArticlesForUser req)
                                internal_server_error)
      as (response & log & Hrun & _ & Hthrow & _).
    exists response, log. split; [exact Hrun | exact Hthrow].
  - destruct (try_catch_returns (POST_try storeUserResponse req)
                                internal_server_error)
      as (response & log & Hrun & _ & Hthrow & _).
    exists response, log. split; [exact Hrun | exact Hthrow].
  - intros u l e Hvalid Hfetch.
    now rewrite (GET_valid_run _ _ _ _ Hvalid), Hfetch.
  - intros u a h f t e Hvalid response Hstore.
    rewrite (POST_valid_run _ _ _ _ _ _ _ Hvalid).
    fold response. now rewrite Hstore.
Qed.

End FailureClaims.

(** ** The quiz view *)

Section ViewClaims.

Variable decodeHTMLEntities : string -> string.
Variable MAX_ARTICLES_PER_SESSION : nat.
Variable translations : string -> string.

Local Abbreviation rendered :=
  (QuizView decodeHTMLEntities MAX_ARTICLES_PER_SESSION translations).

(** The view renders whenever the current index points at an article. *)
Lemma QuizView_renders (props : QuizViewProps) :
  (0 <= currentArticleIndex (quizSession props)
   < Z.of_nat (length (articles (quizSession props))))%Z ->
  exists view, rendered props = Returns view.
Proof.
  intros [Hlow Hhigh].
  unfold QuizView, getArticleHeadline, getArticleContent, at_index.
  destruct (Z.ltb_spec (currentArticleIndex (quizSession props)) 0); [lia |].
  destruct (nth_error (articles (quizSession props))
                      (Z.to_nat (currentArticleIndex (quizSession props))))
    as [article |] eqn:Hnth.
  - eexists. reflexivity.
  - apply nth_error_None in Hnth. lia.
Qed.

(** The submit button of a rendered view is the one built from the props. *)
Lemma QuizView_submitButton (props : QuizViewProps) (view : Rendered) :
  rendered props = Returns view ->
  submitButton view = SubmitButton translations props /\
  handlers view =
    [onClick (HumanAiButton translations props human);
     onClick (HumanAiButton translations props ai);
     onClick (RealFakeButton translations props real);
     onClick (RealFakeButton translations props fake);
     onClick (SubmitButton translations props)].
Proof.
  unfold QuizView.
  destruct (getArticleHeadline _) as [shown |]; [| discriminate].
  destruct (getArticleContent _ _) as [decoded |]; [| discriminate].
  intros [= <-]. now split.
Qed.

(** C3.  In a rendered view the submit button is disabled exactly when one of
    the two selectors is [null], hence enabled exactly when both are set; a
    click on it with both set calls [onSubmitCallback] once, with
    [humanOptionSelected] true exactly for "human" and [isFakeSelected] true
    exactly for "fake"; with "ai" and "real" the callback receives
    [{humanOptionSelected: false, isFakeSelected: false}]. *)
Theorem QuizView_submit (props : QuizViewProps) (view : Rendered) :
  rendered props = Returns view ->
  (disabled (submitButton view) = true <->
   humanAiOptionChecked props = None \/ realFakeOptionChecked props = None) /\
  (disabled (submitButton view) = false <->
   humanAiOptionChecked props <> None /\ realFakeOptionChecked props <> None) /\
  (forall humanAi realFake,
      humanAiOptionChecked props = Some humanAi ->
      realFakeOptionChecked props = Some realFake ->
      click (submitButton view) =
      [onSubmitCallback
         match humanAi with human => true | ai => false end
         match realFake with fake => true | real => false end]) /\
  (humanAiOptionChecked props = Some ai ->
   realFakeOptionChecked props = Some real ->
   click (submitButton view) = [onSubmitCallback false false]).
Proof.
  intros Hview. apply QuizView_submitButton in Hview as [-> _].
  unfold click, SubmitButton; simpl.
  destruct (humanAiOptionChecked props) as [[|] |],
           (realFakeOptionChecked props) as [[|] |]; simpl.
  all: repeat split; try congruence; try tauto.
  all: try (intros [H | H]; discriminate).
  all: try (intros [H1 H2]; congruence).
  all: try (intros ? ? [= <-] [= <-]; reflexivity).
  all: try (left; reflexivity); try (right; reflexivity).
Qed.

(** C9.  While either selector is [null] no click handler of a rendered view
    calls [onSubmitCallback]: the handler of the submit button checks both
    selectors itself and does nothing, whether or not the button is disabled,
    and the other handlers only call the setters. *)
Theorem QuizView_never_submits_unselected (props : QuizViewProps) (view : Rendered) :
  rendered props = Returns view ->
  humanAiOptionChecked props = None \/ realFakeOptionChecked props = None ->
  onClick (submitButton view) tt = [] /\
  forall handler humanOptionSelected isFakeSelected,
    In handler (handlers view) ->
    ~ In (onSubmitCallback humanOptionSelected isFakeSelected) (handler tt).
Proof.
  intros Hview Hnull.
  assert (Hsubmit : onClick (SubmitButton translations props) tt = []).
  { unfold SubmitButton; simpl.
    destruct Hnull as [-> | ->]; simpl; [reflexivity |].
    now rewrite andb_false_r. }
  apply QuizView_submitButton in Hview as [-> Hhandlers]. split.
  - exact Hsubmit.
  - intros handler h f Hin. rewrite Hhandlers in Hin. cbn [In] in Hin.
    destruct Hin as [<- | [<- | [<- | [<- | [<- | []]]]]].
    1-4: simpl; intros [H | []]; discriminate.
    rewrite Hsubmit. intros [].
Qed.

End ViewClaims.

(** ** The claims at concrete inputs *)

(** C1, as amended, at an answer whose [userRespondedIsFake] is a string and
    whose [timeToRespond] is a string too: the earlier check decides. *)
Lemma POST_first_failing_check_wins_witness :
  run (POST (fun _ => Returns (JBool true))
            (request [("userUid", "u1")]
               (Some (Returns (answer_body (JString "a1") (JBool true)
                                           (JString "no") (JString "fast")))))) =
  (Returns (bad_request "Invalid user response"), []).
Proof.
  apply (POST_first_failing_check_wins (fun _ => Returns (JBool true))
           (request [("userUid", "u1")]
              (Some (Returns (answer_body (JString "a1") (JBool true)
                                          (JString "no") (JString "fast")))))
           IsFakeBoolean).
  - reflexivity.
  - right. reflexivity.
Defined.

(** C1 as stated fails: a body that is present but is not JSON is answered by
    500, not by 400 with a validation message. *)
Lemma POST_unparseable_body_is_not_400 :
  let outcome :=
    run (POST (fun _ => Returns (JBool true))
              (request [("userUid", "u1")]
                 (Some (Throws (SyntaxError "Unexpected token h in JSON"))))) in
  outcome = (Returns internal_server_error, []) /\
  forall message, fst outcome <> Returns (bad_request message).
Proof.
  split; [reflexivity | discriminate].
Qed.

(** C5, at a collaborator that reports a correct answer. *)
Lemma POST_maps_collaborator_result_witness :
  run (POST (fun _ => Returns (JBool true))
            (request [("userUid", "u1")]
               (Some (Returns (answer_body (JString "a1") (JBool true)
                                           (JBool false)
                                           (JNumber three_seconds)))))) =
  (Returns (ok (JObject [("isCorrect", JBool true)])),
   [CallStoreUserResponse
      (user_response (JString "u1") (JString "a1") (JBool true) (JBool false)
                     (JNumber three_seconds))]).
Proof.
  apply (POST_maps_collaborator_result (fun _ => Returns (JBool true))
           (request [("userUid", "u1")]
              (Some (Returns (answer_body (JString "a1") (JBool true)
                                          (JBool false)
                                          (JNumber three_seconds)))))
           "u1" "a1" true false three_seconds (JBool true)).
  - unfold ValidAnswer; simpl; repeat split; discriminate.
  - reflexivity.
  - reflexivity.
Defined.

(** C7, as amended, at an answer that is valid but for a string
    [timeToRespond]. *)
Lemma POST_invalid_time_to_respond_witness :
  run (POST (fun _ => Returns (JBool true))
            (request [("userUid", "u1")]
               (Some (Returns (answer_body (JString "a1") (JBool true)
                                           (JBool false) (JString "fast")))))) =
  (Returns (bad_request "Invalid time to respond"), []).
Proof.
  apply (proj1 (POST_invalid_time_to_respond (fun _ => Returns (JBool true))
                  (request [("userUid", "u1")]
                     (Some (Returns (answer_body (JString "a1") (JBool true)
                                                 (JBool false) (JString "fast")))))
                  eq_refl) "u1" "a1" true false).
  unfold ValidButTime; simpl; repeat split; discriminate.
Defined.

(** C7 as stated fails: with a string [timeToRespond] and no [articleUid] the
    message is the one of the article check. *)
Lemma POST_string_time_other_message :
  let outcome :=
    run (POST (fun _ => Returns (JBool true))
              (request [("userUid", "u1")]
                 (Some (Returns (JObject [("timeToRespond", JString "fast")]))))) in
  outcome = (Returns (bad_request "Article ID is required"), []) /\
  fst outcome <> Returns (bad_request "Invalid time to respond").
Proof.
  split; [reflexivity | discriminate].
Qed.

(** C8, at a collaborator that throws an error carrying a secret. *)
Lemma handlers_flatten_failures_witness :
  run (GET (fun _ => Throws (TypeError "connection string: secret"))
           (request [("userUid", "u1"); ("locale", "en")] None)) =
  (Returns internal_server_error, [CallFetchArticlesForUser (JString "u1")]).
Proof.
  apply (handlers_flatten_failures
           (fun _ => Throws (TypeError "connection string: secret"))
           (fun _ => Returns (JBool true))
           (request [("userUid", "u1"); ("locale", "en")] None))
    with (locale := "en") (e := TypeError "connection string: secret").
  - unfold ValidQuizQuery; simpl; repeat split; discriminate.
  - reflexivity.
Defined.

(** C10, at a request without a body. *)
Lemma POST_400_never_stores_witness :
  snd (run (POST (fun _ => Returns (JBool true))
                 (request [("userUid", "u1")] None))) = [].
Proof.
  apply (POST_400_never_stores (fun _ => Returns (JBool true))
           (request [("userUid", "u1")] None)
           (bad_request "Invalid request body")).
  - reflexivity.
  - reflexivity.
Defined.

(** C3, at the session of three articles showing the second, with "ai" and
    "real" selected. *)
Lemma QuizView_submit_witness :
  exists view,
    render (props_with (Some ai) (Some real)) = Returns view /\
    disabled (submitButton view) = false /\
    click (submitButton view) = [onSubmitCallback false false].
Proof.
  eexists. split; [reflexivity |]. split.
  - apply (QuizView_submit (fun text => text) 5 (fun key => key)
             (props_with (Some ai) (Some real)) _ eq_refl).
    split; discriminate.
  - apply (QuizView_submit (fun text => text) 5 (fun key => key)
             (props_with (Some ai) (Some real)) _ eq_refl); reflexivity.
Defined.

(** C9, at the same session with only "real" selected. *)
Lemma QuizView_never_submits_unselected_witness :
  exists view,
    render (props_with None (Some real)) = Returns view /\
    onClick (submitButton view) tt = [].
Proof.
  eexists. split; [reflexivity |].
  apply (QuizView_never_submits_unselected (fun text => text) 5 (fun key => key)
           (props_with None (Some real)) _ eq_refl).
  left. reflexivity.
Defined.

(** * Further properties of the handlers *)

(** ** [GET]: every way a request can go *)

Section GetCoverage.

Variable fetchArticlesForUser : JsValue -> Result JsValue.

(** A [GET] request fails one of the three query checks, without any
    collaborator call, or it is a valid quiz query. *)
Lemma GET_cases (req : NextRequest) :
  (exists message,
      In message ["Invalid query parameters"; "User ID is required";
                  "Locale is required"] /\
      run (GET fetchArticlesForUser req) =
      (Returns (bad_request message), [])) \/
  (exists userUid locale, ValidQuizQuery req userUid locale).
Proof.
  destruct req as [[[pairs |]] stream].
  - destruct (get_null_or_string pairs "userUid") as [Hu | [u Hu]].
    + left. exists "User ID is required". split; [simpl; tauto |].
      unfold_handler. now rewrite Hu.
    + destruct (String.eqb_spec u "") as [-> | Hu'].
      * left. exists "User ID is required". split; [simpl; tauto |].
        unfold_handler. now rewrite Hu.
      * destruct (get_null_or_string pairs "locale") as [Hl | [l Hl]].
        -- left. exists "Locale is required". split; [simpl; tauto |].
           unfold_handler. rewrite Hu, Hl. simpl.
           apply String.eqb_neq in Hu'. now rewrite Hu'.
        -- destruct (String.eqb_spec l "") as [-> | Hl'].
           ++ left. exists "Locale is required". split; [simpl; tauto |].
              unfold_handler. rewrite Hu, Hl. simpl.
              apply String.eqb_neq in Hu'. now rewrite Hu'.
           ++ right. exists u, l. unfold ValidQuizQuery, userUid_of, locale_of.
              simpl. auto.
  - left. exists "Invalid query parameters". split; [simpl; tauto |].
    reflexivity.
Qed.

(** X1.  [GET] always answers with one of the statuses 200, 400, 404 and 500,
    and every answer other than 200 has a body of the form
    [{error: message}]. *)
Theorem GET_response_shape (req : NextRequest) :
  exists response log,
    run (GET fetchArticlesForUser req) = (Returns response, log) /\
    In (status response) [200; 400; 404; 500]%Z /\
    (status response <> 200%Z ->
     exists message, res_body response = error_object message).
Proof.
  destruct (GET_cases req) as [(message & _ & Hrun) | (u & l & Hvalid)].
  - exists (bad_request message), []. split; [exact Hrun |].
    split; [simpl; tauto |]. intros _. now exists message.
  - rewrite (GET_valid_run _ _ _ _ Hvalid).
    destruct (fetchArticlesForUser (JString u)) as [questions | e].
    + destruct (truthy questions); eexists; eexists;
        (split; [reflexivity |]); simpl; (split; [tauto |]).
      * intros H; now destruct H.
      * intros _. now eexists.
    + eexists; eexists. split; [reflexivity |]. simpl. split; [tauto |].
      intros _. now eexists.
Qed.

(** X2.  A 200 answer of [GET] is always the result of one collaborator call
    on a valid query: [fetchArticlesForUser(userUid)] returned a truthy value
    and the body is the JSON serialisation of that value, which is the value
    itself when it is plain JSON data. *)
Theorem GET_200_is_collaborator_result
    (req : NextRequest) (response : NextResponse) (log : list Call) :
  run (GET fetchArticlesForUser req) = (Returns response, log) ->
  status response = 200%Z ->
  exists userUid locale questions,
    ValidQuizQuery req userUid locale /\
    fetchArticlesForUser (JString userUid) = Returns questions /\
    truthy questions = true /\
    JSON_stringify questions = Some (res_body response) /\
    (is_json questions = true -> res_body response = questions) /\
    log = [CallFetchArticlesForUser (JString userUid)].
Proof.
  intros Hrun Hstatus.
  destruct (GET_cases req) as [(message & _ & Hrun') | (u & l & Hvalid)].
  - rewrite Hrun in Hrun'. injection Hrun' as -> ->. discriminate.
  - rewrite (GET_valid_run _ _ _ _ Hvalid) in Hrun.
    destruct (fetchArticlesForUser (JString u)) as [questions | e] eqn:Hfetch.
    + destruct (truthy questions) eqn:Htruthy;
        injection Hrun as <- <-; [| discriminate].
      exists u, l, questions.
      destruct (truthy_has_json _ Htruthy) as (json & Hjson).
      unfold ok, NextResponse_json. rewrite Hjson. simpl.
      split; [exact Hvalid |]. split; [exact Hfetch |].
      split; [exact Htruthy |]. split; [reflexivity |].
      split; [| reflexivity].
      intros Hplain. rewrite (JSON_stringify_plain _ Hplain) in Hjson.
      congruence.
    + injection Hrun as <- <-. discriminate.
Qed.

(** X3.  [GET] answers 404 only when the collaborator, called on a valid
    query, returned a falsy value, and 500 only when that call threw. *)
Theorem GET_404_500_after_call
    (req : NextRequest) (response : NextResponse) (log : list Call) :
  run (GET fetchArticlesForUser req) = (Returns response, log) ->
  (status response = 404%Z ->
   exists userUid locale questions,
     ValidQuizQuery req userUid locale /\
     fetchArticlesForUser (JString userUid) = Returns questions /\
     truthy questions = false /\
     log = [CallFetchArticlesForUser (JString userUid)]) /\
  (status response = 500%Z ->
   exists userUid locale e,
     ValidQuizQuery req userUid locale /\
     fetchArticlesForUser (JString userUid) = Throws e /\
     log = [CallFetchArticlesForUser (JString userUid)]).
Proof.
  intros Hrun.
  destruct (GET_cases req) as [(message & _ & Hrun') | (u & l & Hvalid)].
  - rewrite Hrun in Hrun'. injection Hrun' as -> ->.
    split; discriminate.
  - rewrite (GET_valid_run _ _ _ _ Hvalid) in Hrun.
    destruct (fetchArticlesForUser (JString u)) as [questions | e] eqn:Hfetch.
    + destruct (truthy questions) eqn:Htruthy; injection Hrun as <- <-;
        split; try discriminate.
      intros _. exists u, l, questions. auto.
    + injection Hrun as <- <-. split; [discriminate |].
      intros _. exists u, l, e. auto.
Qed.

(** X4.  A 400 answer of [GET] comes before any collaborator call and carries
    one of three messages; "Invalid User ID" and "Invalid Locale" are never
    sent, since a query value is a string or absent. *)
Theorem GET_400_before_fetch
    (req : NextRequest) (response : NextResponse) (log : list Call) :
  run (GET fetchArticlesForUser req) = (Returns response, log) ->
  (status response = 400%Z ->
   log = [] /\
   exists message,
     response = bad_request message /\
     In message ["Invalid query parameters"; "User ID is required";
                 "Locale is required"]) /\
  response <> bad_request "Invalid User ID" /\
  response <> bad_request "Invalid Locale".
Proof.
  intros Hrun.
  destruct (GET_cases req) as [(message & Hin & Hrun') | (u & l & Hvalid)].
  - rewrite Hrun in Hrun'. injection Hrun' as -> ->. split; [| split].
    + intros _. split; [reflexivity |]. now exists message.
    + simpl in Hin. intros [= ->].
      destruct Hin as [H | [H | [H | []]]]; discriminate.
    + simpl in Hin. intros [= ->].
      destruct Hin as [H | [H | [H | []]]]; discriminate.
  - rewrite (GET_valid_run _ _ _ _ Hvalid) in Hrun.
    destruct (fetchArticlesForUser (JString u)) as [questions | e];
      [destruct (truthy questions) |]; injection Hrun as <- <-;
      repeat split; discriminate.
Qed.

(** X5.  A query parameter that is present with an empty value is treated as
    missing: [?userUid=] gives 400 "User ID is required" and, with a
    [userUid], [?locale=] gives 400 "Locale is required". *)
Theorem GET_empty_parameter_is_missing
    (req : NextRequest) (pairs : URLSearchParams) :
  searchParams (url req) = Some pairs ->
  (get pairs "userUid" = JString "" ->
   run (GET fetchArticlesForUser req) =
   (Returns (bad_request "User ID is required"), [])) /\
  (truthy (get pairs "userUid") = true -> get pairs "locale" = JString "" ->
   run (GET fetchArticlesForUser req) =
   (Returns (bad_request "Locale is required"), [])).
Proof.
  destruct req as [[query] stream]; simpl; intros ->.
  unfold_handler. split.
  - now intros ->.
  - intros -> ->. reflexivity.
Qed.

(** X6.  The answer of [GET] depends on the query only through the first
    [userUid] value and on whether the first [locale] value is non-empty:
    other query pairs, repeated parameters and the request body change
    nothing. *)
Theorem GET_depends_on_first_values
    (pairs pairs' : URLSearchParams) (stream stream' : option ReadableStream) :
  get pairs "userUid" = get pairs' "userUid" ->
  truthy (get pairs "locale") = truthy (get pairs' "locale") ->
  run (GET fetchArticlesForUser
           {| url := {| searchParams := Some pairs |}; body := stream |}) =
  run (GET fetchArticlesForUser
           {| url := {| searchParams := Some pairs' |}; body := stream' |}).
Proof.
  intros Hu Hl. unfold_handler. rewrite <- Hu, <- Hl.
  destruct (truthy (get pairs "userUid")); [| reflexivity].
  destruct (truthy (get pairs "locale")) eqn:Htruthy; [| reflexivity].
  simpl.
  destruct (get_null_or_string pairs "locale") as [H | [l H]];
    rewrite H in Htruthy; [discriminate |].
  destruct (get_null_or_string pairs' "locale") as [H' | [l' H']];
    rewrite H' in Hl; try rewrite H in Hl; [simpl in Hl; congruence |].
  rewrite H, H'. reflexivity.
Qed.

End GetCoverage.

(** ** [POST]: every way a request can go *)

Lemma first_failing_fails (checks : list Check) (req : NextRequest) (check : Check) :
  first_failing checks req = Some check -> passes check req = false.
Proof.
  induction checks as [| c rest IH]; simpl; [discriminate |].
  destruct (passes c req) eqn:Hpass; [exact IH |].
  now intros [= <-].
Qed.

(** The message of the first failing check is one of seven; the check of
    [userUid] can only fail for an absent or empty value. *)
Lemma first_failing_message (req : NextRequest) (check : Check) :
  first_failing validation_order req = Some check ->
  In (message check req)
     ["Invalid query parameters"; "User ID is required"; "Invalid request body";
      "Article ID is required"; "Invalid Article ID"; "Invalid user response";
      "Invalid time to respond"].
Proof.
  intros Hfirst. apply first_failing_fails in Hfirst.
  destruct check; cbn [message passes] in *.
  - simpl; tauto.
  - unfold userUid_of in *.
    destruct (get_null_or_string (query req) "userUid") as [H | [u H]];
      rewrite H in *; simpl in *; [tauto |].
    rewrite andb_true_r in Hfirst. rewrite Hfirst. tauto.
  - simpl; tauto.
  - destruct (truthy _); simpl; tauto.
  - simpl; tauto.
  - simpl; tauto.
  - simpl; tauto.
Qed.

Section PostCoverage.

Variable storeUserResponse : JsValue -> Result JsValue.

(** The three ways a [POST] request can go, with the reason of each. *)
Lemma POST_three_ways (req : NextRequest) :
  (exists check,
      first_failing validation_order req = Some check /\
      run (POST storeUserResponse req) =
      (Returns (bad_request (message check req)), [])) \/
  (first_failing [QueryPresent; UserUidString; BodyPresent] req = None /\
   body_parses req = false /\
   run (POST storeUserResponse req) = (Returns internal_server_error, [])) \/
  (exists userUid articleUid isHuman isFake time,
      ValidAnswer req userUid articleUid isHuman isFake time).
Proof.
  destruct (first_failing validation_order req) as [check |] eqn:Hfirst.
  - destruct (before_parsing check) eqn:Hbefore.
    + left. exists check. split; [reflexivity |].
      apply POST_first_failing_run; auto.
    + destruct (body_parses req) eqn:Hparse.
      * left. exists check. split; [reflexivity |].
        apply POST_first_failing_run; auto.
      * right; left.
        assert (Hthree : first_failing [QueryPresent; UserUidString; BodyPresent]
                                       req = None).
        { revert Hfirst. unfold validation_order. cbn [first_failing].
          destruct (passes QueryPresent req); [| intros [= <-]; discriminate].
          destruct (passes UserUidString req); [| intros [= <-]; discriminate].
          destruct (passes BodyPresent req); [| intros [= <-]; discriminate].
          reflexivity. }
        split; [exact Hthree |]. split; [reflexivity |].
        now apply POST_unparseable_run.
  - right; right. now apply all_checks_pass_valid.
Qed.

(** X7.  [POST] always answers with one of the statuses 200, 400, 404 and
    500; an answer other than 200 has a body [{error: message}], and a 200
    answer has a body [{isCorrect: b}] with [b] a boolean. *)
Theorem POST_response_shape (req : NextRequest) :
  exists response log,
    run (POST storeUserResponse req) = (Returns response, log) /\
    In (status response) [200; 400; 404; 500]%Z /\
    (status response <> 200%Z ->
     exists message, res_body response = error_object message) /\
    (status response = 200%Z ->
     exists b, res_body response = JObject [("isCorrect", JBool b)]).
Proof.
  destruct (POST_three_ways req)
    as [(check & _ & Hrun) | [(_ & _ & Hrun) | (u & a & h & f & t & Hvalid)]].
  - eexists; eexists. split; [exact Hrun |]. simpl.
    split; [tauto |]. split; [intros _; now eexists | discriminate].
  - eexists; eexists. split; [exact Hrun |]. simpl.
    split; [tauto |]. split; [intros _; now eexists | discriminate].
  - rewrite (POST_valid_run _ _ _ _ _ _ _ Hvalid). cbv zeta.
    destruct (storeUserResponse _) as [isCorrect | e].
    + destruct (typeof isCorrect =? "boolean") eqn:Htype.
      * apply boolean_value in Htype as [b ->].
        eexists; eexists. split; [reflexivity |]. simpl.
        split; [tauto |]. split; [intros H; now destruct H |].
        intros _. now exists b.
      * eexists; eexists. split; [reflexivity |]. simpl.
        split; [tauto |]. split; [intros _; now eexists | discriminate].
    + eexists; eexists. split; [reflexivity |]. simpl.
      split; [tauto |]. split; [intros _; now eexists | discriminate].
Qed.

(** X8.  A 200 answer of [POST] always reports what the collaborator said
    about a valid answer: the request carries five well-typed fields,
    [storeUserResponse] was called once with them and returned the boolean
    that the body shows. *)
Theorem POST_200_is_stored_answer
    (req : NextRequest) (response : NextResponse) (log : list Call) :
  run (POST storeUserResponse req) = (Returns response, log) ->
  status response = 200%Z ->
  exists userUid articleUid isHuman isFake time b,
    ValidAnswer req userUid articleUid isHuman isFake time /\
    storeUserResponse
      (user_response (JString userUid) (JString articleUid)
                     (JBool isHuman) (JBool isFake) (JNumber time)) =
      Returns (JBool b) /\
    res_body response = JObject [("isCorrect", JBool b)] /\
    log = [CallStoreUserResponse
             (user_response (JString userUid) (JString articleUid)
                            (JBool isHuman) (JBool isFake) (JNumber time))].
Proof.
  intros Hrun Hstatus.
  destruct (POST_three_ways req)
    as [(check & _ & Hrun') | [(_ & _ & Hrun') | (u & a & h & f & t & Hvalid)]].
  - rewrite Hrun in Hrun'. injection Hrun' as -> ->. discriminate.
  - rewrite Hrun in Hrun'. injection Hrun' as -> ->. discriminate.
  - pose proof (POST_valid_run storeUserResponse _ _ _ _ _ _ Hvalid) as Hrun'.
    cbv zeta in Hrun'. rewrite Hrun in Hrun'.
    destruct (storeUserResponse _) as [isCorrect | e] eqn:Hstore.
    + destruct (typeof isCorrect =? "boolean") eqn:Htype;
        injection Hrun' as -> ->; [| discriminate].
      apply boolean_value in Htype as [b ->].
      exists u, a, h, f, t, b. auto.
    + injection Hrun' as -> ->. discriminate.
Qed.

(** X9.  [POST] answers 404 only when the collaborator, called with a valid
    answer, returned something that is not a boolean.  It answers 500 either
    before any call, when the body is present but cannot be parsed and
    destructured, or after the call threw on a valid answer. *)
Theorem POST_404_500_causes
    (req : NextRequest) (response : NextResponse) (log : list Call) :
  run (POST storeUserResponse req) = (Returns response, log) ->
  (status response = 404%Z ->
   exists userUid articleUid isHuman isFake time isCorrect,
     ValidAnswer req userUid articleUid isHuman isFake time /\
     storeUserResponse
       (user_response (JString userUid) (JString articleUid)
                      (JBool isHuman) (JBool isFake) (JNumber time)) =
       Returns isCorrect /\
     (forall b, isCorrect <> JBool b) /\
     log = [CallStoreUserResponse
              (user_response (JString userUid) (JString articleUid)
                             (JBool isHuman) (JBool isFake) (JNumber time))]) /\
  (status response = 500%Z ->
   (log = [] /\
    first_failing [QueryPresent; UserUidString; BodyPresent] req = None /\
    body_parses req = false) \/
   (exists userUid articleUid isHuman isFake time e,
       ValidAnswer req userUid articleUid isHuman isFake time /\
       storeUserResponse
         (user_response (JString userUid) (JString articleUid)
                        (JBool isHuman) (JBool isFake) (JNumber time)) =
         Throws e /\
       log = [CallStoreUserResponse
                (user_response (JString userUid) (JString articleUid)
                               (JBool isHuman) (JBool isFake) (JNumber time))])).
Proof.
  intros Hrun.
  destruct (POST_three_ways req)
    as [(check & _ & Hrun') |
        [(Hthree & Hparse & Hrun') | (u & a & h & f & t & Hvalid)]].
  - rewrite Hrun in Hrun'. injection Hrun' as -> ->. split; discriminate.
  - rewrite Hrun in Hrun'. injection Hrun' as -> ->.
    split; [discriminate |]. intros _. left. auto.
  - pose proof (POST_valid_run storeUserResponse _ _ _ _ _ _ Hvalid) as Hrun'.
    cbv zeta in Hrun'. rewrite Hrun in Hrun'.
    destruct (storeUserResponse _) as [isCorrect | e] eqn:Hstore.
    + destruct (typeof isCorrect =? "boolean") eqn:Htype;
        injection Hrun' as -> ->; split; try discriminate.
      intros _. exists u, a, h, f, t, isCorrect.
      split; [exact Hvalid |]. split; [exact Hstore |].
      split; [intros b ->; discriminate | reflexivity].
    + injection Hrun' as -> ->. split; [discriminate |].
      intros _. right. exists u, a, h, f, t, e.
      split; [exact Hvalid |]. split; [exact Hstore | reflexivity].
Qed.

(** X10.  A 400 answer of [POST] carries the message of the first failing
    check, which is one of seven; "Invalid User ID" is never sent, since a
    query value is a string or absent. *)
Theorem POST_400_messages
    (req : NextRequest) (response : NextResponse) (log : list Call) :
  run (POST storeUserResponse req) = (Returns response, log) ->
  (status response = 400%Z ->
   exists check,
     first_failing validation_order req = Some check /\
     response = bad_request (message check req) /\
     In (message check req)
        ["Invalid query parameters"; "User ID is required";
         "Invalid request body"; "Article ID is required";
         "Invalid Article ID"; "Invalid user response";
         "Invalid time to respond"]) /\
  response <> bad_request "Invalid User ID".
Proof.
  intros Hrun.
  destruct (POST_three_ways req)
    as [(check & Hfirst & Hrun') |
        [(_ & _ & Hrun') | (u & a & h & f & t & Hvalid)]].
  - rewrite Hrun in Hrun'. injection Hrun' as -> ->.
    pose proof (first_failing_message _ _ Hfirst) as Hin. split.
    + intros _. exists check. auto.
    + intros [= Hmessage]. rewrite Hmessage in Hin. simpl in Hin.
      repeat (destruct Hin as [Hin | Hin]; [discriminate |]). exact Hin.
  - rewrite Hrun in Hrun'. injection Hrun' as -> ->. split; discriminate.
  - pose proof (POST_valid_run storeUserResponse _ _ _ _ _ _ Hvalid) as Hrun'.
    cbv zeta in Hrun'. rewrite Hrun in Hrun'.
    destruct (storeUserResponse _) as [isCorrect | e];
      [destruct (typeof isCorrect =? "boolean") |];
      injection Hrun' as -> ->; split; discriminate.
Qed.

(** X11.  A body that is JSON but not an object with the fields: [null]
    makes the destructuring throw and gives 500, while a boolean, a number, a
    string, an array or the empty object has no [articleUid] and gives 400
    "Article ID is required" (the query checks having passed). *)
Theorem POST_body_not_an_answer
    (req : NextRequest) (userUid : string) (jsv : JsValue) :
  userUid_of req = JString userUid -> userUid <> "" ->
  body req = Some {| parsed := Returns jsv |} ->
  (jsv = JNull ->
   run (POST storeUserResponse req) = (Returns internal_server_error, [])) /\
  ((exists b, jsv = JBool b) \/ (exists n, jsv = JNumber n) \/
   (exists s, jsv = JString s) \/ (exists items, jsv = JArray items) \/
   jsv = JObject [] ->
   run (POST storeUserResponse req) =
   (Returns (bad_request "Article ID is required"), [])).
Proof.
  destruct req as [[[pairs |]] stream]; unfold userUid_of, query; simpl;
    intros Hu Hu' ->; [| discriminate].
  apply String.eqb_neq in Hu'.
  split.
  - intros ->. unfold_handler. rewrite Hu. simpl. now rewrite Hu'.
  - intros [[b ->] | [[n ->] | [[s ->] | [[items ->] | ->]]]];
      unfold_handler; rewrite Hu; simpl; now rewrite Hu'.
Qed.

(** X12.  The answer of [POST] to a request with an object body depends only
    on the first [userUid] of the query and on the four fields it reads:
    other query pairs and other body fields change neither the response nor
    what is stored. *)
Theorem POST_depends_on_five_fields
    (pairs pairs' : URLSearchParams) (props props' : list (string * JsValue)) :
  get pairs "userUid" = get pairs' "userUid" ->
  (forall name,
      In name ["articleUid"; "userRespondedIsHuman"; "userRespondedIsFake";
               "timeToRespond"] ->
      lookup props name = lookup props' name) ->
  run (POST storeUserResponse
            (request pairs (Some (Returns (JObject props))))) =
  run (POST storeUserResponse
            (request pairs' (Some (Returns (JObject props'))))).
Proof.
  intros Hu Hfields. unfold request. unfold_handler.
  rewrite <- Hu.
  rewrite <- (Hfields "articleUid"), <- (Hfields "userRespondedIsHuman"),
    <- (Hfields "userRespondedIsFake"), <- (Hfields "timeToRespond");
    simpl; tauto.
Qed.

End PostCoverage.

(** * Further properties of the quiz view *)

(** Mapping a function that is constant on a range over that range. *)
Lemma map_seq_constant {A : Type} (f : nat -> A) (x : A) (start len : nat) :
  (forall i, start <= i < start + len -> f i = x) ->
  map f (seq start len) = repeat x len.
Proof.
  revert start. induction len as [| len IH]; intros start Hconst; simpl.
  - reflexivity.
  - rewrite (Hconst start) by lia. f_equal. apply IH.
    intros i Hi. apply Hconst. lia.
Qed.

Section ViewCoverage.

Variable decodeHTMLEntities : string -> string.
Variable MAX_ARTICLES_PER_SESSION : nat.
Variable translations : string -> string.

Local Abbreviation shown :=
  (QuizView decodeHTMLEntities MAX_ARTICLES_PER_SESSION translations).

(** What a rendered view is made of. *)
Lemma QuizView_parts (props : QuizViewProps) (view : Rendered) :
  shown props = Returns view ->
  exists article,
    at_index (articles (quizSession props))
             (currentArticleIndex (quizSession props)) = Some article /\
    view =
    {| shownHeadline := headline article;
       shownContent := decodeHTMLEntities (content article);
       humanButton := HumanAiButton translations props human;
       aiButton := HumanAiButton translations props ai;
       realButton := RealFakeButton translations props real;
       fakeButton := RealFakeButton translations props fake;
       progress := progressIndicator MAX_ARTICLES_PER_SESSION (quizSession props);
       submitButton := SubmitButton translations props |}.
Proof.
  unfold QuizView, getArticleHeadline, getArticleContent.
  destruct (at_index _ _) as [article |]; [| discriminate].
  intros [= <-]. now exists article.
Qed.

(** X13.  The progress indicator, for a current index [c] that is not
    negative: [c] highlighted dots (at most the maximum), then the wide
    highlighted dot of the current article when [c] is below the maximum,
    then plain dots up to the maximum. *)
Theorem progressIndicator_structure (quizSession : QuizSession) (c : nat) :
  currentArticleIndex quizSession = Z.of_nat c ->
  progressIndicator MAX_ARTICLES_PER_SESSION quizSession =
  (repeat {| highlighted := true; wide := false |}
          (Nat.min c MAX_ARTICLES_PER_SESSION)
   ++ (if (c <? MAX_ARTICLES_PER_SESSION)%nat
       then [{| highlighted := true; wide := true |}] else [])
   ++ repeat {| highlighted := false; wide := false |}
             (MAX_ARTICLES_PER_SESSION - S c))%list.
Proof.
  intros Hc. unfold progressIndicator. rewrite Hc.
  destruct (Nat.ltb_spec c MAX_ARTICLES_PER_SESSION) as [Hlt | Hge].
  - replace MAX_ARTICLES_PER_SESSION
      with (c + S (MAX_ARTICLES_PER_SESSION - S c)) at 1 by lia.
    rewrite seq_app, map_app. simpl seq. simpl map.
    rewrite Nat.min_l by lia. f_equal.
    + apply map_seq_constant. intros i Hi. f_equal.
      * apply Z.ltb_lt. lia.
      * apply Z.eqb_neq. lia.
    + cbn [app]. f_equal.
      * f_equal; [apply Z.ltb_lt | apply Z.eqb_eq]; lia.
      * apply map_seq_constant. intros i Hi. f_equal.
        -- apply Z.ltb_ge. lia.
        -- apply Z.eqb_neq. lia.
  - rewrite Nat.min_r by lia.
    replace (MAX_ARTICLES_PER_SESSION - S c) with 0 by lia.
    simpl. rewrite app_nil_r.
    apply map_seq_constant. intros i Hi. f_equal.
    + apply Z.ltb_lt. lia.
    + apply Z.eqb_neq. lia.
Qed.

(** X14.  The progress indicator has one dot per position up to the maximum
    session length, whatever the session holds; a wide dot is always a
    highlighted one, and no dot is wide when the current index is negative or
    not below the maximum. *)
Theorem progressIndicator_dots (quizSession : QuizSession) :
  length (progressIndicator MAX_ARTICLES_PER_SESSION quizSession) =
    MAX_ARTICLES_PER_SESSION /\
  (forall marker,
      In marker (progressIndicator MAX_ARTICLES_PER_SESSION quizSession) ->
      wide marker = true -> highlighted marker = true) /\
  ((currentArticleIndex quizSession < 0
    \/ Z.of_nat MAX_ARTICLES_PER_SESSION <= currentArticleIndex quizSession)%Z ->
   forall marker,
     In marker (progressIndicator MAX_ARTICLES_PER_SESSION quizSession) ->
     wide marker = false).
Proof.
  unfold progressIndicator. split; [| split].
  - now rewrite length_map, length_seq.
  - intros marker Hin Hwide. apply in_map_iff in Hin as (i & <- & _).
    simpl in *. apply Z.eqb_eq in Hwide. apply Z.ltb_lt. lia.
  - intros Hout marker Hin. apply in_map_iff in Hin as (i & <- & Hi).
    apply in_seq in Hi. simpl. apply Z.eqb_neq. lia.
Qed.

(** X15.  The view renders exactly when the current index points at an
    article of the session; otherwise reading the headline throws. *)
Theorem QuizView_renders_iff (props : QuizViewProps) :
  (exists view, shown props = Returns view) <->
  (0 <= currentArticleIndex (quizSession props)
   < Z.of_nat (length (articles (quizSession props))))%Z.
Proof.
  split.
  - intros (view & Hview).
    apply QuizView_parts in Hview as (article & Hat & _).
    unfold at_index in Hat.
    destruct (Z.ltb_spec (currentArticleIndex (quizSession props)) 0);
      [discriminate |].
    assert (Z.to_nat (currentArticleIndex (quizSession props))
            < length (articles (quizSession props))) as Hlt.
    { apply nth_error_Some. congruence. }
    lia.
  - intros [Hlow Hhigh].
    unfold QuizView, getArticleHeadline, getArticleContent, at_index.
    destruct (Z.ltb_spec (currentArticleIndex (quizSession props)) 0); [lia |].
    destruct (nth_error (articles (quizSession props))
                        (Z.to_nat (currentArticleIndex (quizSession props))))
      as [article |] eqn:Hnth.
    + eexists. reflexivity.
    + apply nth_error_None in Hnth. lia.
Qed.

(** X16.  A rendered view shows the current article: its headline as it is
    and its content passed through the entity decoder, together with the
    progress indicator of the session. *)
Theorem QuizView_shows_current_article (props : QuizViewProps) (view : Rendered) :
  shown props = Returns view ->
  exists article,
    nth_error (articles (quizSession props))
              (Z.to_nat (currentArticleIndex (quizSession props))) =
      Some article /\
    shownHeadline view = headline article /\
    shownContent view = decodeHTMLEntities (content article) /\
    progress view =
      progressIndicator MAX_ARTICLES_PER_SESSION (quizSession props).
Proof.
  intros Hview. apply QuizView_parts in Hview as (article & Hat & ->).
  exists article. unfold at_index in Hat.
  destruct (currentArticleIndex (quizSession props) <? 0)%Z; [discriminate |].
  auto.
Qed.

(** X17.  The two buttons of a group behave as a radio group: a button shows
    as checked exactly when its variant is the selected one, so the two are
    never checked together, and one of them is checked exactly when the
    selector is set. *)
Theorem QuizView_radio_groups (props : QuizViewProps) (view : Rendered) :
  shown props = Returns view ->
  (checked (humanButton view) = true <->
   humanAiOptionChecked props = Some human) /\
  (checked (aiButton view) = true <-> humanAiOptionChecked props = Some ai) /\
  (checked (realButton view) = true <->
   realFakeOptionChecked props = Some real) /\
  (checked (fakeButton view) = true <->
   realFakeOptionChecked props = Some fake) /\
  checked (humanButton view) && checked (aiButton view) = false /\
  checked (realButton view) && checked (fakeButton view) = false /\
  checked (humanButton view) || checked (aiButton view) =
    selected (humanAiOptionChecked props) /\
  checked (realButton view) || checked (fakeButton view) =
    selected (realFakeOptionChecked props).
Proof.
  intros Hview. apply QuizView_parts in Hview as (article & _ & ->). simpl.
  destruct (humanAiOptionChecked props) as [[|] |],
           (realFakeOptionChecked props) as [[|] |]; simpl;
    repeat split; congruence.
Qed.

(** X18.  The four choice buttons stay enabled in every state of the
    selectors: a click on one calls the setter of its group with its own
    variant, once, and nothing else. *)
Theorem QuizView_choice_clicks (props : QuizViewProps) (view : Rendered) :
  shown props = Returns view ->
  click (humanButton view) = [setHumanAiOptionChecked human] /\
  click (aiButton view) = [setHumanAiOptionChecked ai] /\
  click (realButton view) = [setRealFakeOptionChecked real] /\
  click (fakeButton view) = [setRealFakeOptionChecked fake].
Proof.
  intros Hview. apply QuizView_parts in Hview as (article & _ & ->).
  repeat split.
Qed.

(** X19.  The [disabled] attribute of the submit button and the guard inside
    its handler agree: in every state a user click has the effect of running
    the handler, which makes at most one call, always of [onSubmitCallback],
    and none at all when the button is disabled. *)
Theorem QuizView_submit_guard_agrees (props : QuizViewProps) (view : Rendered) :
  shown props = Returns view ->
  click (submitButton view) = onClick (submitButton view) tt /\
  length (onClick (submitButton view) tt) <= 1 /\
  (forall call, In call (onClick (submitButton view) tt) ->
                exists humanOptionSelected isFakeSelected,
                  call = onSubmitCallback humanOptionSelected isFakeSelected) /\
  (disabled (submitButton view) = true -> onClick (submitButton view) tt = []).
Proof.
  intros Hview. apply QuizView_parts in Hview as (article & _ & ->).
  unfold click. simpl.
  destruct (humanAiOptionChecked props) as [[|] |],
           (realFakeOptionChecked props) as [[|] |]; simpl;
    repeat split; try lia; try discriminate; try tauto.
  all: intros call [<- | []]; eauto.
Qed.

End ViewCoverage.

(** ** When the collaborators are called *)

Section CallCoverage.

Variable fetchArticlesForUser : JsValue -> Result JsValue.
Variable storeUserResponse : JsValue -> Result JsValue.

(** X20.  [GET] calls [fetchArticlesForUser] exactly when the query is valid,
    once and with the user identifier, whatever the call then returns or
    throws; on any other request it calls nothing. *)
Theorem GET_fetches_iff_valid (req : NextRequest) :
  (exists userUid locale,
      ValidQuizQuery req userUid locale /\
      snd (run (GET fetchArticlesForUser req)) =
        [CallFetchArticlesForUser (JString userUid)]) \/
  ((forall userUid locale, ~ ValidQuizQuery req userUid locale) /\
   snd (run (GET fetchArticlesForUser req)) = []).
Proof.
  destruct (GET_cases fetchArticlesForUser req)
    as [(message & _ & Hrun) | (u & l & Hvalid)].
  - right. split; [| now rewrite Hrun].
    intros u l Hvalid.
    rewrite (GET_valid_run _ _ _ _ Hvalid) in Hrun. discriminate.
  - left. exists u, l. split; [exact Hvalid |].
    now rewrite (GET_valid_run _ _ _ _ Hvalid).
Qed.

(** X21.  [POST] calls [storeUserResponse] exactly when the request carries a
    valid answer, once and with its five fields, whatever the call then
    returns or throws; on any other request nothing is stored. *)
Theorem POST_stores_iff_valid (req : NextRequest) :
  (exists userUid articleUid isHuman isFake time,
      ValidAnswer req userUid articleUid isHuman isFake time /\
      snd (run (POST storeUserResponse req)) =
        [CallStoreUserResponse
           (user_response (JString userUid) (JString articleUid)
                          (JBool isHuman) (JBool isFake) (JNumber time))]) \/
  ((forall userUid articleUid isHuman isFake time,
       ~ ValidAnswer req userUid articleUid isHuman isFake time) /\
   snd (run (POST storeUserResponse req)) = []).
Proof.
  destruct (POST_three_ways storeUserResponse req)
    as [(check & _ & Hrun) | [(_ & _ & Hrun) | (u & a & h & f & t & Hvalid)]].
  - right. split; [| now rewrite Hrun].
    intros u a h f t Hvalid.
    pose proof (POST_valid_run storeUserResponse _ _ _ _ _ _ Hvalid) as Hrun'.
    cbv zeta in Hrun'. rewrite Hrun in Hrun'. discriminate.
  - right. split; [| now rewrite Hrun].
    intros u a h f t Hvalid.
    pose proof (POST_valid_run storeUserResponse _ _ _ _ _ _ Hvalid) as Hrun'.
    cbv zeta in Hrun'. rewrite Hrun in Hrun'. discriminate.
  - left. exists u, a, h, f, t. split; [exact Hvalid |].
    pose proof (POST_valid_run storeUserResponse _ _ _ _ _ _ Hvalid) as Hrun.
    cbv zeta in Hrun. now rewrite Hrun.
Qed.

(** Every answer of the handlers has a JSON body: [NextResponse.json] is
    never handed [undefined]. *)
Lemma handlers_send_json (req : NextRequest) :
  (forall response log,
      run (GET fetchArticlesForUser req) = (Returns response, log) ->
      res_body response <> JUndefined) /\
  (forall response log,
      run (POST storeUserResponse req) = (Returns response, log) ->
      res_body response <> JUndefined).
Proof.
  split; intros response log Hrun.
  - destruct (GET_cases fetchArticlesForUser req)
      as [(message & _ & Hrun') | (u & l & Hvalid)].
    + rewrite Hrun in Hrun'. injection Hrun' as -> ->. discriminate.
    + rewrite (GET_valid_run _ _ _ _ Hvalid) in Hrun.
      destruct (fetchArticlesForUser (JString u)) as [questions | e];
        [destruct (truthy questions) eqn:Htruthy |];
        injection Hrun as <- <-; try discriminate.
      destruct (truthy_has_json _ Htruthy) as (json & Hjson).
      unfold ok, NextResponse_json. rewrite Hjson. simpl.
      exact (JSON_stringify_defined _ _ Hjson).
  - destruct (POST_three_ways storeUserResponse req)
      as [(check & _ & Hrun') | [(_ & _ & Hrun') | (u & a & h & f & t & Hvalid)]].
    + rewrite Hrun in Hrun'. injection Hrun' as -> ->. discriminate.
    + rewrite Hrun in Hrun'. injection Hrun' as -> ->. discriminate.
    + pose proof (POST_valid_run storeUserResponse _ _ _ _ _ _ Hvalid) as Hrun'.
      cbv zeta in Hrun'. rewrite Hrun in Hrun'.
      destruct (storeUserResponse _) as [isCorrect | e];
        [destruct (typeof isCorrect =? "boolean") |];
        injection Hrun' as -> ->; discriminate.
Qed.

End CallCoverage.

(** ** The further properties at concrete inputs *)

(** X2, at a collaborator that returns three articles. *)
Lemma GET_200_is_collaborator_result_witness :
  exists userUid locale questions,
    ValidQuizQuery quiz_query userUid locale /\
    (fun _ : JsValue => Returns three_article_values) (JString userUid) =
      Returns questions /\
    truthy questions = true /\
    JSON_stringify questions = Some (res_body (ok three_article_values)) /\
    (is_json questions = true ->
     res_body (ok three_article_values) = questions) /\
    [CallFetchArticlesForUser (JString "u1")] =
      [CallFetchArticlesForUser (JString userUid)].
Proof.
  apply (GET_200_is_collaborator_result
           (fun _ => Returns three_article_values) quiz_query
           (ok three_article_values)
           [CallFetchArticlesForUser (JString "u1")]).
  - reflexivity.
  - reflexivity.
Defined.

(** X3, at a collaborator that returns [null]. *)
Lemma GET_404_500_after_call_witness :
  exists userUid locale questions,
    ValidQuizQuery quiz_query userUid locale /\
    (fun _ : JsValue => Returns JNull) (JString userUid) = Returns questions /\
    truthy questions = false /\
    [CallFetchArticlesForUser (JString "u1")] =
      [CallFetchArticlesForUser (JString userUid)].
Proof.
  apply (GET_404_500_after_call (fun _ => Returns JNull) quiz_query
           (not_found "Quiz questions not found")
           [CallFetchArticlesForUser (JString "u1")]).
  - reflexivity.
  - reflexivity.
Defined.

(** X4, at a request without [userUid]. *)
Lemma GET_400_before_fetch_witness :
  ([] : list Call) = [] /\
  exists message,
    bad_request "User ID is required" = bad_request message /\
    In message ["Invalid query parameters"; "User ID is required";
                "Locale is required"].
Proof.
  apply (GET_400_before_fetch (fun _ => Returns JNull)
           (request [("locale", "en")] None)
           (bad_request "User ID is required") []).
  - reflexivity.
  - reflexivity.
Defined.

(** X5, at [?userUid=&locale=en]. *)
Lemma GET_empty_parameter_is_missing_witness :
  run (GET (fun _ => Returns JNull)
           (request [("userUid", ""); ("locale", "en")] None)) =
  (Returns (bad_request "User ID is required"), []).
Proof.
  apply (GET_empty_parameter_is_missing (fun _ => Returns JNull)
           (request [("userUid", ""); ("locale", "en")] None)
           [("userUid", ""); ("locale", "en")]).
  - reflexivity.
  - reflexivity.
Defined.

(** X6, at two queries that differ in the locale, in a repeated [userUid], in
    an unrelated pair and in the body. *)
Lemma GET_depends_on_first_values_witness :
  run (GET (fun _ => Returns (JArray [JString "a1"]))
           {| url := {| searchParams :=
                          Some [("userUid", "u1"); ("locale", "en");
                                ("page", "2")] |};
              body := None |}) =
  run (GET (fun _ => Returns (JArray [JString "a1"]))
           {| url := {| searchParams :=
                          Some [("userUid", "u1"); ("userUid", "u2");
                                ("locale", "de")] |};
              body := Some {| parsed := Returns JNull |} |}).
Proof.
  apply (GET_depends_on_first_values
           (fun _ => Returns (JArray [JString "a1"]))
           [("userUid", "u1"); ("locale", "en"); ("page", "2")]
           [("userUid", "u1"); ("userUid", "u2"); ("locale", "de")]
           None (Some {| parsed := Returns JNull |})).
  - reflexivity.
  - reflexivity.
Defined.

(** X8, at a collaborator that reports a wrong answer. *)
Lemma POST_200_is_stored_answer_witness :
  exists userUid articleUid isHuman isFake time b,
    ValidAnswer quiz_answer userUid articleUid isHuman isFake time /\
    (fun _ : JsValue => Returns (JBool false))
      (user_response (JString userUid) (JString articleUid)
                     (JBool isHuman) (JBool isFake) (JNumber time)) =
      Returns (JBool b) /\
    res_body (ok (JObject [("isCorrect", JBool false)])) =
      JObject [("isCorrect", JBool b)] /\
    [CallStoreUserResponse stored_answer] =
      [CallStoreUserResponse
         (user_response (JString userUid) (JString articleUid)
                        (JBool isHuman) (JBool isFake) (JNumber time))].
Proof.
  apply (POST_200_is_stored_answer (fun _ => Returns (JBool false)) quiz_answer
           (ok (JObject [("isCorrect", JBool false)]))
           [CallStoreUserResponse stored_answer]).
  - reflexivity.
  - reflexivity.
Defined.

(** X9, at a collaborator that returns [undefined]. *)
Lemma POST_404_500_causes_witness :
  exists userUid articleUid isHuman isFake time isCorrect,
    ValidAnswer quiz_answer userUid articleUid isHuman isFake time /\
    (fun _ : JsValue => Returns JUndefined)
      (user_response (JString userUid) (JString articleUid)
                     (JBool isHuman) (JBool isFake) (JNumber time)) =
      Returns isCorrect /\
    (forall b, isCorrect <> JBool b) /\
    [CallStoreUserResponse stored_answer] =
      [CallStoreUserResponse
         (user_response (JString userUid) (JString articleUid)
                        (JBool isHuman) (JBool isFake) (JNumber time))].
Proof.
  apply (POST_404_500_causes (fun _ => Returns JUndefined) quiz_answer
           (not_found "User response not stored")
           [CallStoreUserResponse stored_answer]).
  - reflexivity.
  - reflexivity.
Defined.

(** X10, at a request without a body. *)
Lemma POST_400_messages_witness :
  exists check,
    first_failing validation_order (request [("userUid", "u1")] None) =
      Some check /\
    bad_request "Invalid request body" =
      bad_request (message check (request [("userUid", "u1")] None)) /\
    In (message check (request [("userUid", "u1")] None))
       ["Invalid query parameters"; "User ID is required";
        "Invalid request body"; "Article ID is required";
        "Invalid Article ID"; "Invalid user response";
        "Invalid time to respond"].
Proof.
  apply (POST_400_messages (fun _ => Returns (JBool true))
           (request [("userUid", "u1")] None)
           (bad_request "Invalid request body") []).
  - reflexivity.
  - reflexivity.
Defined.

(** X11, at the body [[]]. *)
Lemma POST_body_not_an_answer_witness :
  run (POST (fun _ => Returns (JBool true))
            (request [("userUid", "u1")] (Some (Returns (JArray []))))) =
  (Returns (bad_request "Article ID is required"), []).
Proof.
  apply (POST_body_not_an_answer (fun _ => Returns (JBool true))
           (request [("userUid", "u1")] (Some (Returns (JArray []))))
           "u1" (JArray [])).
  - reflexivity.
  - discriminate.
  - reflexivity.
  - right; right; right; left. now exists [].
Defined.

(** X12, at an answer with an extra query pair and an extra body field. *)
Lemma POST_depends_on_five_fields_witness :
  run (POST (fun _ => Returns (JBool true))
            (request [("userUid", "u1")]
               (Some (Returns (JObject [("articleUid", JString "a1")]))))) =
  run (POST (fun _ => Returns (JBool true))
            (request [("locale", "en"); ("userUid", "u1")]
               (Some (Returns (JObject [("admin", JBool true);
                                        ("articleUid", JString "a1")]))))).
Proof.
  apply (POST_depends_on_five_fields (fun _ => Returns (JBool true))
           [("userUid", "u1")] [("locale", "en"); ("userUid", "u1")]
           [("articleUid", JString "a1")]
           [("admin", JBool true); ("articleUid", JString "a1")]).
  - reflexivity.
  - intros name [<- | [<- | [<- | [<- | []]]]]; reflexivity.
Defined.

(** X13, at the second of three articles with five dots. *)
Lemma progressIndicator_structure_witness :
  progressIndicator 5 three_articles =
  [{| highlighted := true; wide := false |};
   {| highlighted := true; wide := true |};
   {| highlighted := false; wide := false |};
   {| highlighted := false; wide := false |};
   {| highlighted := false; wide := false |}].
Proof.
  apply (progressIndicator_structure 5 three_articles 1).
  reflexivity.
Defined.

(** X16, at the second of three articles. *)
Lemma QuizView_shows_current_article_witness :
  exists view article,
    render (props_with None None) = Returns view /\
    nth_error (articles three_articles) 1 = Some article /\
    shownHeadline view = headline article.
Proof.
  eexists.
  destruct (QuizView_shows_current_article (fun text => text) 5 (fun key => key)
              (props_with None None) _ eq_refl)
    as (article & Hnth & Hheadline & _).
  exists article. split; [reflexivity |]. split; assumption.
Defined.

(** X17, with "human" selected and the other group unset. *)
Lemma QuizView_radio_groups_witness :
  exists view,
    render (props_with (Some human) None) = Returns view /\
    checked (humanButton view) && checked (aiButton view) = false.
Proof.
  eexists. split; [reflexivity |].
  apply (QuizView_radio_groups (fun text => text) 5 (fun key => key)
           (props_with (Some human) None) _ eq_refl).
Defined.

(** X18, with both selectors already set. *)
Lemma QuizView_choice_clicks_witness :
  exists view,
    render (props_with (Some human) (Some fake)) = Returns view /\
    click (aiButton view) = [setHumanAiOptionChecked ai].
Proof.
  eexists. split; [reflexivity |].
  apply (QuizView_choice_clicks (fun text => text) 5 (fun key => key)
           (props_with (Some human) (Some fake)) _ eq_refl).
Defined.

(** X19, with only "fake" selected. *)
Lemma QuizView_submit_guard_agrees_witness :
  exists view,
    render (props_with None (Some fake)) = Returns view /\
    click (submitButton view) = onClick (submitButton view) tt.
Proof.
  eexists. split; [reflexivity |].
  exact (proj1 (QuizView_submit_guard_agrees (fun text => text) 5
                  (fun key => key) (props_with None (Some fake)) _ eq_refl)).
Defined.
